(** * The null sink node of the SPA null plugin (src/null/null-sink.c, null.h)

    A shallow embedding of the node's control operations
    ([impl_node_set_io], [impl_node_send_command], [impl_node_set_param],
    [impl_node_enum_params], ...) and of the real-time routine
    [impl_node_process], followed by the properties proved about them.

    Conventions.
    - C integers are [Z]; a value stored in a [uint32_t] or [uint64_t] object
      goes through [u32] or [u64], which write the wrap-around out.
    - A pointer is [option]: [None] is NULL.  The buffer-queue area is shared
      with the host and written by [impl_node_process], so it lives in a
      [memory] (a finite map from addresses to areas) and the node only holds
      its address.  Buffers, datas and chunks are only read, and are embedded
      by value behind their pointers.
    - A function of the real-time path returns [Undefined] where the C
      program has no defined behaviour (a dangling area pointer, a read past
      the end of an array, a division by zero).
    - Logging ([spa_log_*]) has no effect on the node and is left out. *)

From Stdlib Require Import ZArith Lia Bool List.
From stdpp Require Import base option list gmap.
Import ListNotations.

Local Open Scope Z_scope.

(** ** Machine integers *)

Definition u32 (x : Z) : Z := x mod 2 ^ 32.
Definition u64 (x : Z) : Z := x mod 2 ^ 64.

(** [sizeof(float)], the divisor's second factor in [impl_node_process]. *)
Definition sizeof_float : Z := 4.

(** ** Constants *)

(** null.h *)
Definition MAX_PORTS : Z := 1.
Definition MAX_BUFFERS : Z := 16.
Definition DEFAULT_FRAMES : Z := 1024.

(** errno.h (Linux numbering). *)
Definition ENOENT : Z := 2.
Definition EIO : Z := 5.
Definition EINVAL : Z := 22.
Definition ENOTSUP : Z := 95.

(** spa/utils/defs.h and spa/node/io.h: the sentinel identifier and the
    status returned by a processing call that ran. *)
Definition SPA_ID_INVALID : Z := 4294967295.
Definition SPA_STATUS_OK : Z := 0.

(** spa/node/io.h, [enum spa_io_type]. *)
Definition SPA_IO_Buffers : Z := 1.
Definition SPA_IO_RateMatch : Z := 8.

(** spa/node/command.h, [enum spa_node_command]. *)
Definition SPA_NODE_COMMAND_Suspend : Z := 0.
Definition SPA_NODE_COMMAND_Pause : Z := 1.
Definition SPA_NODE_COMMAND_Start : Z := 2.

(** spa/param/param.h, [enum spa_param_type]. *)
Definition SPA_PARAM_Format : Z := 4.

(** spa/param/format.h, [enum spa_media_type] and [enum spa_media_subtype]. *)
Definition SPA_MEDIA_TYPE_audio : Z := 1.
Definition SPA_MEDIA_SUBTYPE_raw : Z := 1.

(** spa/param/audio/raw.h, [enum spa_audio_format] (the entries used below). *)
Definition SPA_AUDIO_FORMAT_S16_LE : Z := 259.
Definition SPA_AUDIO_FORMAT_F32_LE : Z := 283.
Definition SPA_AUDIO_FORMAT_S16P : Z := 514.
Definition SPA_AUDIO_FORMAT_F32P : Z := 518.
Definition SPA_AUDIO_FORMAT_F64P : Z := 519.

(** spa/node/node.h *)
Definition SPA_RESULT_TYPE_NODE_PARAMS : Z := 2.

(** ** Data model *)

(** [struct spa_audio_info_raw]: sample encoding, flags, rate, channels.  The
    channel position table is never read by the node and is left out. *)
Record spa_audio_info_raw : Type := {
  format : Z;
  raw_flags : Z;
  rate : Z;
  channels : Z
}.

(** [struct spa_audio_info]: media type and subtype, then the raw member of
    the [info] union (the only member the node uses). *)
Record spa_audio_info : Type := {
  media_type : Z;
  media_subtype : Z;
  info_raw : spa_audio_info_raw
}.

(** [= { 0 }] and [spa_zero]. *)
Definition zero_raw : spa_audio_info_raw :=
  {| format := 0; raw_flags := 0; rate := 0; channels := 0 |}.
Definition zero_audio_info : spa_audio_info :=
  {| media_type := 0; media_subtype := 0; info_raw := zero_raw |}.

(** [struct spa_chunk]; the field [size] of the source is [chunk_size] here. *)
Record spa_chunk : Type := {
  chunk_offset : Z;
  chunk_size : Z;
  chunk_stride : Z;
  chunk_flags : Z
}.

(** [struct spa_data], reduced to what the node reads: the chunk pointer. *)
Record spa_data : Type := {
  chunk : option spa_chunk
}.

(** [struct spa_buffer]: the array [datas] with its [n_datas] elements. *)
Record spa_buffer : Type := {
  datas : list spa_data
}.

(** The buffer-queue area as [impl_node_process] uses it: a status word, the
    current buffer identifier, and an array of buffer pointers. *)
Record spa_io_buffers : Type := {
  status : Z;
  buffer_id : Z;
  buffers : list (option spa_buffer)
}.

Definition addr : Type := positive.
Abbreviation memory := (gmap addr spa_io_buffers).

(** A registered listener: the hook, its callback table and its user data, as
    opaque handles. *)
Record spa_hook : Type := {
  hook_id : Z;
  hook_events : Z;
  hook_data : Z
}.

(** [struct null_state], the fields the operations below read or write. *)
Record null_state : Type := {
  hooks : list spa_hook;
  have_format : bool;
  current_format : spa_audio_info;
  io : option addr;
  rate_match : option addr;
  frame_count : Z;
  buffer_count : Z;
  started : bool;
  following : bool
}.

Definition with_started (b : bool) (s : null_state) : null_state :=
  {| hooks := hooks s; have_format := have_format s;
     current_format := current_format s; io := io s;
     rate_match := rate_match s; frame_count := frame_count s;
     buffer_count := buffer_count s; started := b; following := following s |}.

Definition with_format (hf : bool) (f : spa_audio_info) (s : null_state) : null_state :=
  {| hooks := hooks s; have_format := hf; current_format := f; io := io s;
     rate_match := rate_match s; frame_count := frame_count s;
     buffer_count := buffer_count s; started := started s;
     following := following s |}.

Definition with_io (p : option addr) (s : null_state) : null_state :=
  {| hooks := hooks s; have_format := have_format s;
     current_format := current_format s; io := p;
     rate_match := rate_match s; frame_count := frame_count s;
     buffer_count := buffer_count s; started := started s;
     following := following s |}.

Definition with_rate_match (p : option addr) (s : null_state) : null_state :=
  {| hooks := hooks s; have_format := have_format s;
     current_format := current_format s; io := io s;
     rate_match := p; frame_count := frame_count s;
     buffer_count := buffer_count s; started := started s;
     following := following s |}.

Definition with_counters (fc bc : Z) (s : null_state) : null_state :=
  {| hooks := hooks s; have_format := have_format s;
     current_format := current_format s; io := io s;
     rate_match := rate_match s; frame_count := fc;
     buffer_count := bc; started := started s; following := following s |}.

Definition with_hooks (h : list spa_hook) (s : null_state) : null_state :=
  {| hooks := h; have_format := have_format s;
     current_format := current_format s; io := io s;
     rate_match := rate_match s; frame_count := frame_count s;
     buffer_count := buffer_count s; started := started s;
     following := following s |}.

(** [io->buffer_id = id]. *)
Definition with_buffer_id (id : Z) (a : spa_io_buffers) : spa_io_buffers :=
  {| status := status a; buffer_id := id; buffers := buffers a |}.

(** ** The real-time routine *)

Inductive rt_result : Type :=
| Undefined
| Returned (res : Z) (state : null_state) (m : memory).

(** The statistics block of [impl_node_process] (null-sink.c:631-646), run
    when [buf->datas[0].chunk] is not NULL.  The divisor is a [size_t]
    product (64 bits wide); [frames] is a [uint32_t]; both counters are
    [uint64_t]. *)
Definition account_chunk (state : null_state) (c : spa_chunk) : option null_state :=
  let size := chunk_size c in
  let divisor := u64 (channels (info_raw (current_format state)) * sizeof_float) in
  if divisor =? 0 then None
  else
    let frames := u32 (size / divisor) in
    Some (with_counters (u64 (frame_count state + frames))
                        (u64 (buffer_count state + 1)) state).

(** [impl_node_process] (null-sink.c:562-674). *)
Definition impl_node_process (state : null_state) (m : memory) : rt_result :=
  if negb (started state) || negb (have_format state) then
    Returned SPA_STATUS_OK state m
  else
    match io state with
    | None => Returned SPA_STATUS_OK state m
    | Some p =>
      match m !! p with
      | None => Undefined
      | Some area =>
        if buffer_id area =? SPA_ID_INVALID then
          Returned SPA_STATUS_OK state m
        else if buffer_id area >=? MAX_BUFFERS then
          Returned SPA_STATUS_OK state (<[p := with_buffer_id SPA_ID_INVALID area]> m)
        else
          match buffers area !! Z.to_nat (buffer_id area) with
          | None => Undefined
          | Some None =>
            Returned SPA_STATUS_OK state (<[p := with_buffer_id SPA_ID_INVALID area]> m)
          | Some (Some buf) =>
            match datas buf !! 0%nat with
            | None => Undefined
            | Some d =>
              match chunk d with
              | Some c =>
                match account_chunk state c with
                | None => Undefined
                | Some state' =>
                  Returned SPA_STATUS_OK state'
                           (<[p := with_buffer_id SPA_ID_INVALID area]> m)
                end
              | None =>
                Returned SPA_STATUS_OK state
                         (<[p := with_buffer_id SPA_ID_INVALID area]> m)
              end
            end
          end
      end
    end.

(** ** The SPA library, as the node sees it

    The pod (the serialised descriptor) and its parsers and builder belong to
    the SPA library and are not part of this plugin; the node's operations are
    stated over any implementation of them.
    - [spa_format_parse param] returns the library's result code and the
      media type and subtype it wrote.
    - [spa_format_audio_raw_parse param info] returns the result code and
      [info] as the parser left it.
    - [spa_format_audio_raw_build id info] returns the pod built, or NULL.
    - the two [sizeof] are those of the areas [impl_node_set_io] accepts. *)
Class SpaLib : Type := {
  spa_pod : Type;
  spa_format_parse : spa_pod -> Z * (Z * Z);
  spa_format_audio_raw_parse :
    spa_pod -> spa_audio_info_raw -> Z * spa_audio_info_raw;
  spa_format_audio_raw_build : Z -> spa_audio_info_raw -> option spa_pod;
  sizeof_spa_io_buffers : Z;
  sizeof_spa_io_rate_match : Z
}.

(** A local variable of the C program that may never have been assigned. *)
Inductive cval (A : Type) : Type :=
| Indeterminate
| Assigned (a : A).
Arguments Indeterminate {A}.
Arguments Assigned {A} a.

(** [struct spa_result_node_params]. *)
Record spa_result_node_params `{SpaLib} : Type := {
  result_id : cval Z;
  result_index : cval Z;
  result_next : cval Z;
  result_param : cval (option spa_pod)
}.

(** What the node hands to its hook list through [spa_node_call], with the
    arguments in the order of the call. *)
Inductive node_event `{SpaLib} : Type :=
| param_changed (version : Z) (id : Z) (param : option spa_pod)
| result (seq : Z) (res : Z) (type : Z) (r : spa_result_node_params).

(** The outcome of a control call: the value returned, the node afterwards,
    and the events emitted, oldest first. *)
Record reply `{SpaLib} : Type := {
  ret : Z;
  post : null_state;
  emitted : list node_event
}.

(** A value written through a [uint32_t *]. *)
Definition as_u32_raw (r : spa_audio_info_raw) : spa_audio_info_raw :=
  {| format := u32 (format r); raw_flags := u32 (raw_flags r);
     rate := u32 (rate r); channels := u32 (channels r) |}.

Section Control.
Context `{L : SpaLib}.

(** [impl_node_add_listener] (null-sink.c:95-114). *)
Definition impl_node_add_listener (state : null_state)
    (listener : option Z) (events data : Z) : reply :=
  match listener with
  | None => {| ret := - EINVAL; post := state; emitted := [] |}
  | Some h =>
    {| ret := 0;
       post := with_hooks (hooks state ++
                 [{| hook_id := h; hook_events := events; hook_data := data |}]) state;
       emitted := [] |}
  end.

(** [impl_node_set_io] (null-sink.c:142-192). *)
Definition impl_node_set_io (state : null_state)
    (id : Z) (data : option addr) (size : Z) : reply :=
  if id =? SPA_IO_Buffers then
    {| ret := 0;
       post := with_io (if size >=? sizeof_spa_io_buffers then data else None) state;
       emitted := [] |}
  else if id =? SPA_IO_RateMatch then
    {| ret := 0;
       post := with_rate_match
                 (if size >=? sizeof_spa_io_rate_match then data else None) state;
       emitted := [] |}
  else
    {| ret := - ENOENT; post := state; emitted := [] |}.

(** [impl_node_send_command] (null-sink.c:218-272); [command] is the pointer,
    and a command is represented by its [SPA_NODE_COMMAND_ID]. *)
Definition impl_node_send_command (state : null_state) (command : option Z) : reply :=
  match command with
  | None => {| ret := - EINVAL; post := state; emitted := [] |}
  | Some c =>
    if c =? SPA_NODE_COMMAND_Start then
      if negb (have_format state) then
        {| ret := - EIO; post := state; emitted := [] |}
      else
        {| ret := 0; post := with_started true state; emitted := [] |}
    else if (c =? SPA_NODE_COMMAND_Suspend) || (c =? SPA_NODE_COMMAND_Pause) then
      {| ret := 0; post := with_started false state; emitted := [] |}
    else
      {| ret := - ENOTSUP; post := state; emitted := [] |}
  end.

(** [impl_node_set_param] (null-sink.c:305-425). *)
Definition impl_node_set_param (state : null_state)
    (id flags : Z) (param : option spa_pod) : reply :=
  if id =? SPA_PARAM_Format then
    match param with
    | None =>
      {| ret := 0;
         post := with_format false zero_audio_info state;
         emitted := [param_changed 0 id param] |}
    | Some p =>
      let '(res, (mt, mst)) := spa_format_parse p in
      if res <? 0 then {| ret := res; post := state; emitted := [] |}
      else
        let mt := u32 mt in
        let mst := u32 mst in
        if negb (mt =? SPA_MEDIA_TYPE_audio) || negb (mst =? SPA_MEDIA_SUBTYPE_raw) then
          {| ret := - EINVAL; post := state; emitted := [] |}
        else
          let '(res, raw) := spa_format_audio_raw_parse p zero_raw in
          let raw := as_u32_raw raw in
          if res <? 0 then {| ret := res; post := state; emitted := [] |}
          else if (channels raw =? 0) || (channels raw >? 64) then
            {| ret := - EINVAL; post := state; emitted := [] |}
          else if (rate raw =? 0) || (rate raw >? 192000) then
            {| ret := - EINVAL; post := state; emitted := [] |}
          else
            {| ret := res;
               post := with_format true
                         {| media_type := mt; media_subtype := mst; info_raw := raw |}
                         state;
               emitted := [param_changed 0 id param] |}
    end
  else
    {| ret := - ENOTSUP; post := state; emitted := [] |}.

(** [SPA_AUDIO_INFO_RAW_INIT(.format = F32P, .channels = 2, .rate = 48000)]. *)
Definition advertised_raw : spa_audio_info_raw :=
  {| format := SPA_AUDIO_FORMAT_F32P; raw_flags := 0; rate := 48000; channels := 2 |}.

(** [impl_node_enum_params] (null-sink.c:455-523).  The local [result] has
    its [id] and [next] assigned and nothing else; [param] receives the pod
    built and is not used afterwards. *)
Definition impl_node_enum_params (state : null_state)
    (seq id start num : Z) (filter : option spa_pod) : reply :=
  if num =? 0 then {| ret := - EINVAL; post := state; emitted := [] |}
  else
    let r := {| result_id := Assigned id; result_index := Indeterminate;
                result_next := Assigned start; result_param := Indeterminate |} in
    let count := 0 in
    if id =? SPA_PARAM_Format then
      if (start =? 0) && (count <? num) then
        let param := spa_format_audio_raw_build SPA_PARAM_Format advertised_raw in
        {| ret := u32 (count + 1); post := state;
           emitted := [result seq 0 SPA_RESULT_TYPE_NODE_PARAMS r] |}
      else {| ret := count; post := state; emitted := [] |}
    else {| ret := count; post := state; emitted := [] |}.

(** [impl_node_set_port_param] and [impl_node_set_port_io]
    (null-sink.c:809-816, 867-873) forward to the node-level operation. *)
Definition impl_node_set_port_param (state : null_state)
    (direction port_id id flags : Z) (param : option spa_pod) : reply :=
  impl_node_set_param state id flags param.

Definition impl_node_set_port_io (state : null_state)
    (direction port_id id : Z) (data : option addr) (size : Z) : reply :=
  impl_node_set_io state id data size.

End Control.

(** [null_state_init] (null-sink.c:1061-1104): the state after [spa_zero] and
    [spa_hook_list_init]. *)
Definition null_state_init : null_state :=
  {| hooks := []; have_format := false; current_format := zero_audio_info;
     io := None; rate_match := None; frame_count := 0; buffer_count := 0;
     started := false; following := false |}.

(** [null_state_cleanup] (null-sink.c:1106-1119). *)
Definition null_state_cleanup (state : null_state) : null_state :=
  with_started false (with_format false (current_format state) (with_hooks [] state)).

(** ** Control-plane calls as data

    The calls a host can make on the control side, and their effect on the
    node, so that statements can range over every sequence of them. *)
Inductive control_op `{SpaLib} : Type :=
| AddListener (listener : option Z) (events data : Z)
| SetIo (id : Z) (data : option addr) (size : Z)
| SendCommand (command : option Z)
| SetParam (id flags : Z) (param : option spa_pod)
| EnumParams (seq id start num : Z) (filter : option spa_pod)
| SetPortParam (direction port_id id flags : Z) (param : option spa_pod)
| SetPortIo (direction port_id id : Z) (data : option addr) (size : Z)
| Cleanup.

Definition control_call `{SpaLib} (state : null_state) (op : control_op) : reply :=
  match op with
  | AddListener l e d => impl_node_add_listener state l e d
  | SetIo id data size => impl_node_set_io state id data size
  | SendCommand c => impl_node_send_command state c
  | SetParam id fl p => impl_node_set_param state id fl p
  | EnumParams seq id start num f => impl_node_enum_params state seq id start num f
  | SetPortParam dir port id fl p => impl_node_set_port_param state dir port id fl p
  | SetPortIo dir port id data size => impl_node_set_port_io state dir port id data size
  | Cleanup => {| ret := 0; post := null_state_cleanup state; emitted := [] |}
  end.

Definition control_run `{SpaLib} (state : null_state) (ops : list control_op) : null_state :=
  fold_left (fun s op => post (control_call s op)) ops state.

(** ** What a descriptor says, read through the library's parsers *)

Section Descriptor.
Context `{L : SpaLib}.

(** Both parsers return a non-negative result on the pod. *)
Definition descriptor_parses (p : spa_pod) : Prop :=
  0 <= fst (spa_format_parse p) /\
  0 <= fst (spa_format_audio_raw_parse p zero_raw).

Definition descriptor_media_type (p : spa_pod) : Z :=
  u32 (fst (snd (spa_format_parse p))).
Definition descriptor_media_subtype (p : spa_pod) : Z :=
  u32 (snd (snd (spa_format_parse p))).
Definition descriptor_raw (p : spa_pod) : spa_audio_info_raw :=
  as_u32_raw (snd (spa_format_audio_raw_parse p zero_raw)).

(** The acceptance condition of the specification: raw audio, 1 to 64
    channels, 1 to 192000 Hz. *)
Definition acceptable_format (p : spa_pod) : Prop :=
  descriptor_media_type p = SPA_MEDIA_TYPE_audio /\
  descriptor_media_subtype p = SPA_MEDIA_SUBTYPE_raw /\
  1 <= channels (descriptor_raw p) <= 64 /\
  1 <= rate (descriptor_raw p) <= 192000.

Definition descriptor_info (p : spa_pod) : spa_audio_info :=
  {| media_type := descriptor_media_type p;
     media_subtype := descriptor_media_subtype p;
     info_raw := descriptor_raw p |}.

End Descriptor.

(** The sample width, in bytes, that the specification attaches to an
    encoding ("determined by the accepted format's encoding").  This table
    follows the specification's words, not the source: the source has no
    such table. *)
Definition spec_sample_width (encoding : Z) : option Z :=
  if encoding =? SPA_AUDIO_FORMAT_S16_LE then Some 2
  else if encoding =? SPA_AUDIO_FORMAT_S16P then Some 2
  else if encoding =? SPA_AUDIO_FORMAT_F32_LE then Some 4
  else if encoding =? SPA_AUDIO_FORMAT_F32P then Some 4
  else if encoding =? SPA_AUDIO_FORMAT_F64P then Some 8
  else None.

(** ** Concrete nodes and areas used by the examples *)

(** A small stand-in for the library: a pod is either a format object that
    carries its fields, or something that is not a format at all. *)
Inductive sample_pod : Type :=
| FormatObject (mt mst : Z) (raw : spa_audio_info_raw)
| NotAFormat.

#[export] Instance sample_lib : SpaLib := {|
  spa_pod := sample_pod;
  spa_format_parse p :=
    match p with
    | FormatObject mt mst _ => (0, (mt, mst))
    | NotAFormat => (- EINVAL, (0, 0))
    end;
  spa_format_audio_raw_parse p info :=
    match p with
    | FormatObject _ _ raw => (0, raw)
    | NotAFormat => (- EINVAL, info)
    end;
  spa_format_audio_raw_build id raw :=
    Some (FormatObject SPA_MEDIA_TYPE_audio SPA_MEDIA_SUBTYPE_raw raw);
  sizeof_spa_io_buffers := 8;
  sizeof_spa_io_rate_match := 16
|}.

Definition stereo_f32 : sample_pod :=
  FormatObject SPA_MEDIA_TYPE_audio SPA_MEDIA_SUBTYPE_raw
    {| format := SPA_AUDIO_FORMAT_F32P; raw_flags := 0; rate := 48000; channels := 2 |}.

Definition stereo_s16 : sample_pod :=
  FormatObject SPA_MEDIA_TYPE_audio SPA_MEDIA_SUBTYPE_raw
    {| format := SPA_AUDIO_FORMAT_S16_LE; raw_flags := 0; rate := 48000; channels := 2 |}.

Definition video_pod : sample_pod :=
  FormatObject 2 SPA_MEDIA_SUBTYPE_raw
    {| format := 0; raw_flags := 0; rate := 48000; channels := 2 |}.

(** One buffer whose first data carries a chunk of 4096 bytes. *)
Definition chunk_4096 : spa_chunk :=
  {| chunk_offset := 0; chunk_size := 4096; chunk_stride := 0; chunk_flags := 0 |}.
Definition buffer_4096 : spa_buffer :=
  {| datas := [ {| chunk := Some chunk_4096 |} ] |}.
Definition area_with (id : Z) : spa_io_buffers :=
  {| status := 0; buffer_id := id; buffers := [Some buffer_4096] |}.

(** The node after: set the format, bind the area at address 1, Start. *)
Definition configured_with (p : sample_pod) : null_state :=
  post (impl_node_set_param null_state_init SPA_PARAM_Format 0 (Some p)).
Definition running_with (p : sample_pod) : null_state :=
  post (impl_node_send_command
          (post (impl_node_set_io (configured_with p) SPA_IO_Buffers (Some 1%positive) 8))
          (Some SPA_NODE_COMMAND_Start)).

Definition memory_with (id : Z) : memory := {[ 1%positive := area_with id ]}.

(** What a processing call left in the counters and in the area at [p]. *)
Definition frames_after (r : rt_result) : option Z :=
  match r with Returned _ s _ => Some (frame_count s) | Undefined => None end.
Definition buffers_after (r : rt_result) : option Z :=
  match r with Returned _ s _ => Some (buffer_count s) | Undefined => None end.
Definition status_after (r : rt_result) : option Z :=
  match r with Returned res _ _ => Some res | Undefined => None end.
Definition buffer_id_after (p : addr) (r : rt_result) : option Z :=
  match r with
  | Returned _ _ m => buffer_id <$> (m !! p)
  | Undefined => None
  end.

Example running_with_f32 :
  running_with stereo_f32 =
  {| hooks := []; have_format := true;
     current_format := {| media_type := 1; media_subtype := 1;
       info_raw := {| format := 518; raw_flags := 0; rate := 48000; channels := 2 |} |};
     io := Some 1%positive; rate_match := None; frame_count := 0;
     buffer_count := 0; started := true; following := false |}.
Proof. reflexivity. Qed.

Example frames_scenario :
  frames_after (impl_node_process (running_with stereo_f32) (memory_with 0)) = Some 512.
Proof. vm_compute. reflexivity. Qed.

(** * Properties *)

(** ** Machine integers *)

Lemma u32_small (x : Z) : 0 <= x < 2 ^ 32 -> u32 x = x.
Proof. intros Hx. unfold u32. apply Z.mod_small. exact Hx. Qed.

Lemma u64_small (x : Z) : 0 <= x < 2 ^ 64 -> u64 x = x.
Proof. intros Hx. unfold u64. apply Z.mod_small. exact Hx. Qed.

Lemma u32_range (x : Z) : 0 <= u32 x < 2 ^ 32.
Proof. unfold u32. apply Z.mod_pos_bound. lia. Qed.

(** The frame count of one chunk: no intermediate value wraps when the chunk
    size and the channel count are 32-bit values and there is a channel. *)
Lemma frames_of_chunk (size ch : Z) :
  0 <= size < 2 ^ 32 -> 1 <= ch < 2 ^ 32 ->
  u32 (size / u64 (ch * sizeof_float)) = size / (ch * sizeof_float).
Proof.
  intros Hs Hc. unfold sizeof_float.
  rewrite (u64_small (ch * 4)) by lia.
  apply u32_small. split.
  - apply Z.div_pos; lia.
  - apply Z.le_lt_trans with size; [| lia].
    apply Z.div_le_upper_bound; nia.
Qed.

Lemma account_chunk_frames (st : null_state) (c : spa_chunk) :
  0 <= chunk_size c < 2 ^ 32 ->
  1 <= channels (info_raw (current_format st)) < 2 ^ 32 ->
  account_chunk st c =
  Some (with_counters
          (u64 (frame_count st +
                chunk_size c / (channels (info_raw (current_format st)) * sizeof_float)))
          (u64 (buffer_count st + 1)) st).
Proof.
  intros Hs Hc. unfold account_chunk.
  destruct (Z.eqb_spec (u64 (channels (info_raw (current_format st)) * sizeof_float)) 0)
    as [Hz | _].
  - unfold sizeof_float in Hz. rewrite u64_small in Hz by lia. lia.
  - rewrite frames_of_chunk by assumption. reflexivity.
Qed.

(** ** The real-time routine, branch by branch *)

Section Process.
Variables (st : null_state) (m : memory).

Lemma process_gated :
  started st = false \/ have_format st = false ->
  impl_node_process st m = Returned SPA_STATUS_OK st m.
Proof.
  intros [H | H]; unfold impl_node_process; rewrite H; simpl.
  - reflexivity.
  - rewrite orb_true_r. reflexivity.
Qed.

Lemma process_unbound :
  io st = None -> impl_node_process st m = Returned SPA_STATUS_OK st m.
Proof.
  intros H. unfold impl_node_process. rewrite H.
  destruct (negb (started st) || negb (have_format st)); reflexivity.
Qed.

Lemma process_idle (p : addr) (area : spa_io_buffers) :
  io st = Some p -> m !! p = Some area -> buffer_id area = SPA_ID_INVALID ->
  impl_node_process st m = Returned SPA_STATUS_OK st m.
Proof.
  intros Hio Hm Hid. unfold impl_node_process. rewrite Hio, Hm, Hid. simpl.
  destruct (negb (started st) || negb (have_format st)); reflexivity.
Qed.

(** Past the three early returns, the routine is a function of the area. *)
Lemma process_running (p : addr) (area : spa_io_buffers) :
  started st = true -> have_format st = true ->
  io st = Some p -> m !! p = Some area ->
  buffer_id area <> SPA_ID_INVALID ->
  impl_node_process st m =
  if buffer_id area >=? MAX_BUFFERS then
    Returned SPA_STATUS_OK st (<[p := with_buffer_id SPA_ID_INVALID area]> m)
  else
    match buffers area !! Z.to_nat (buffer_id area) with
    | None => Undefined
    | Some None =>
      Returned SPA_STATUS_OK st (<[p := with_buffer_id SPA_ID_INVALID area]> m)
    | Some (Some buf) =>
      match datas buf !! 0%nat with
      | None => Undefined
      | Some d =>
        match chunk d with
        | Some c =>
          match account_chunk st c with
          | None => Undefined
          | Some st' =>
            Returned SPA_STATUS_OK st' (<[p := with_buffer_id SPA_ID_INVALID area]> m)
          end
        | None =>
          Returned SPA_STATUS_OK st (<[p := with_buffer_id SPA_ID_INVALID area]> m)
        end
      end
    end.
Proof.
  intros Hs Hf Hio Hm Hid. unfold impl_node_process.
  rewrite Hs, Hf, Hio, Hm. simpl.
  destruct (Z.eqb_spec (buffer_id area) SPA_ID_INVALID) as [E | _]; [contradiction |].
  reflexivity.
Qed.

Lemma process_chunk (p : addr) (area : spa_io_buffers)
    (buf : spa_buffer) (d : spa_data) (c : spa_chunk) :
  started st = true -> have_format st = true ->
  io st = Some p -> m !! p = Some area ->
  0 <= buffer_id area < MAX_BUFFERS ->
  buffers area !! Z.to_nat (buffer_id area) = Some (Some buf) ->
  datas buf !! 0%nat = Some d -> chunk d = Some c ->
  0 <= chunk_size c < 2 ^ 32 ->
  1 <= channels (info_raw (current_format st)) < 2 ^ 32 ->
  impl_node_process st m =
  Returned SPA_STATUS_OK
    (with_counters
       (u64 (frame_count st +
             chunk_size c / (channels (info_raw (current_format st)) * sizeof_float)))
       (u64 (buffer_count st + 1)) st)
    (<[p := with_buffer_id SPA_ID_INVALID area]> m).
Proof.
  intros Hs Hf Hio Hm Hid Hbuf Hd Hc Hsize Hch.
  rewrite (process_running p area) by
    (try assumption; unfold MAX_BUFFERS, SPA_ID_INVALID in *; lia).
  destruct (Z.geb_spec (buffer_id area) MAX_BUFFERS) as [Hge | _]; [lia |].
  rewrite Hbuf, Hd, Hc, account_chunk_frames by assumption.
  reflexivity.
Qed.

End Process.

Lemma buffer_id_after_consumed (res : Z) (s : null_state) (m : memory)
    (p : addr) (area : spa_io_buffers) :
  buffer_id_after p
    (Returned res s (<[p := with_buffer_id SPA_ID_INVALID area]> m)) =
  Some SPA_ID_INVALID.
Proof. unfold buffer_id_after. rewrite lookup_insert_eq. reflexivity. Qed.

(** C4.  When the node is not started, or has no accepted format, or has no
    buffer-queue area bound, or the bound area holds the INVALID identifier,
    [impl_node_process] returns [SPA_STATUS_OK] and changes neither the node
    (so neither counter) nor the area. *)
Theorem process_noop (st : null_state) (m : memory) :
  started st = false \/ have_format st = false \/ io st = None \/
  (exists (p : addr) (area : spa_io_buffers),
      io st = Some p /\ m !! p = Some area /\ buffer_id area = SPA_ID_INVALID) ->
  impl_node_process st m = Returned SPA_STATUS_OK st m /\
  frames_after (impl_node_process st m) = Some (frame_count st) /\
  buffers_after (impl_node_process st m) = Some (buffer_count st).
Proof.
  intros H.
  assert (E : impl_node_process st m = Returned SPA_STATUS_OK st m).
  { destruct H as [H | [H | [H | (p & area & Hio & Hm & Hid)]]].
    - apply process_gated. left. exact H.
    - apply process_gated. right. exact H.
    - apply process_unbound. exact H.
    - apply (process_idle st m p area); assumption. }
  rewrite E. repeat split; reflexivity.
Qed.

Lemma process_noop_witness :
  impl_node_process (running_with stereo_f32) (memory_with SPA_ID_INVALID) =
    Returned SPA_STATUS_OK (running_with stereo_f32) (memory_with SPA_ID_INVALID) /\
  impl_node_process (configured_with stereo_f32) (memory_with 0) =
    Returned SPA_STATUS_OK (configured_with stereo_f32) (memory_with 0).
Proof.
  split.
  - apply (process_noop (running_with stereo_f32) (memory_with SPA_ID_INVALID)).
    right. right. right. exists 1%positive, (area_with SPA_ID_INVALID).
    repeat split; reflexivity.
  - apply (process_noop (configured_with stereo_f32) (memory_with 0)).
    left. reflexivity.
Defined.

(** C6.  On a started, configured node whose bound area holds an identifier
    that is neither INVALID nor below [MAX_BUFFERS], [impl_node_process]
    writes INVALID into the area, returns [SPA_STATUS_OK] and leaves the node,
    hence both counters, as it was. *)
Theorem process_resets_bad_identifier (st : null_state) (m : memory)
    (p : addr) (area : spa_io_buffers) :
  started st = true -> have_format st = true ->
  io st = Some p -> m !! p = Some area ->
  buffer_id area <> SPA_ID_INVALID -> MAX_BUFFERS <= buffer_id area ->
  impl_node_process st m =
    Returned SPA_STATUS_OK st (<[p := with_buffer_id SPA_ID_INVALID area]> m) /\
  buffer_id_after p (impl_node_process st m) = Some SPA_ID_INVALID /\
  frames_after (impl_node_process st m) = Some (frame_count st) /\
  buffers_after (impl_node_process st m) = Some (buffer_count st).
Proof.
  intros Hs Hf Hio Hm Hid Hge.
  rewrite (process_running st m p area) by assumption.
  destruct (Z.geb_spec (buffer_id area) MAX_BUFFERS) as [_ | Hlt]; [| lia].
  rewrite buffer_id_after_consumed. repeat split; reflexivity.
Qed.

Lemma process_resets_bad_identifier_witness :
  buffer_id_after 1%positive
    (impl_node_process (running_with stereo_f32) (memory_with 16)) =
    Some SPA_ID_INVALID /\
  frames_after (impl_node_process (running_with stereo_f32) (memory_with 16)) = Some 0 /\
  buffers_after (impl_node_process (running_with stereo_f32) (memory_with 16)) = Some 0.
Proof.
  apply (process_resets_bad_identifier
           (running_with stereo_f32) (memory_with 16) 1%positive (area_with 16)).
  - reflexivity.
  - reflexivity.
  - reflexivity.
  - reflexivity.
  - unfold SPA_ID_INVALID. simpl. lia.
  - unfold MAX_BUFFERS. simpl. lia.
Defined.

(** C1, as the code has it.  On a started, configured node whose bound area
    holds an identifier [k < MAX_BUFFERS] of a non-null buffer whose first data
    carries a chunk of [nbytes] bytes, with [nchan] channels in the accepted
    format, one call returns [SPA_STATUS_OK], adds
    [nbytes / (nchan * sizeof(float))] to
    [frame_count] and 1 to [buffer_count] (64-bit counters, wrapping at
    2^64), and writes INVALID into the area.  The sample width is 4 bytes
    whatever the encoding of the accepted format. *)
Theorem process_consumes_chunk (st : null_state) (m : memory) (p : addr)
    (area : spa_io_buffers) (buf : spa_buffer) (d : spa_data) (c : spa_chunk)
    (nbytes nchan : Z) :
  started st = true -> have_format st = true ->
  io st = Some p -> m !! p = Some area ->
  0 <= buffer_id area < MAX_BUFFERS ->
  buffers area !! Z.to_nat (buffer_id area) = Some (Some buf) ->
  datas buf !! 0%nat = Some d -> chunk d = Some c ->
  chunk_size c = nbytes -> channels (info_raw (current_format st)) = nchan ->
  0 <= nbytes < 2 ^ 32 -> 1 <= nchan < 2 ^ 32 ->
  status_after (impl_node_process st m) = Some SPA_STATUS_OK /\
  frames_after (impl_node_process st m) =
    Some (u64 (frame_count st + nbytes / (nchan * sizeof_float))) /\
  buffers_after (impl_node_process st m) = Some (u64 (buffer_count st + 1)) /\
  buffer_id_after p (impl_node_process st m) = Some SPA_ID_INVALID.
Proof.
  intros Hs Hf Hio Hm Hid Hbuf Hd Hc HS HC HSr HCr. subst nbytes nchan.
  rewrite (process_chunk st m p area buf d c) by assumption.
  rewrite buffer_id_after_consumed. repeat split; reflexivity.
Qed.

Lemma process_consumes_chunk_witness :
  status_after (impl_node_process (running_with stereo_f32) (memory_with 0)) =
    Some SPA_STATUS_OK /\
  frames_after (impl_node_process (running_with stereo_f32) (memory_with 0)) =
    Some 512 /\
  buffers_after (impl_node_process (running_with stereo_f32) (memory_with 0)) =
    Some 1 /\
  buffer_id_after 1%positive
    (impl_node_process (running_with stereo_f32) (memory_with 0)) =
    Some SPA_ID_INVALID.
Proof.
  apply (process_consumes_chunk
           (running_with stereo_f32) (memory_with 0) 1%positive (area_with 0)
           buffer_4096 {| chunk := Some chunk_4096 |} chunk_4096 4096 2).
  - reflexivity.
  - reflexivity.
  - reflexivity.
  - reflexivity.
  - unfold MAX_BUFFERS. simpl. lia.
  - reflexivity.
  - reflexivity.
  - reflexivity.
  - reflexivity.
  - reflexivity.
  - lia.
  - lia.
Defined.

(** C1 as stated fails: with 16-bit samples (width 2) in 2 channels, a chunk
    of 4096 bytes holds 4096 / (2 * 2) = 1024 frames, and the node counts
    512. *)
Lemma process_ignores_encoding :
  spec_sample_width
    (format (info_raw (current_format (running_with stereo_s16)))) = Some 2 /\
  frames_after (impl_node_process (running_with stereo_s16) (memory_with 0)) =
    Some 512 /\
  frames_after (impl_node_process (running_with stereo_s16) (memory_with 0)) <>
    Some (frame_count (running_with stereo_s16) +
          chunk_size chunk_4096 /
          (channels (info_raw (current_format (running_with stereo_s16))) * 2)).
Proof.
  assert (E : frames_after
                (impl_node_process (running_with stereo_s16) (memory_with 0)) =
              Some 512).
  { vm_compute. reflexivity. }
  split; [reflexivity |]. split; [exact E |].
  rewrite E. simpl. discriminate.
Qed.

(** ** Control operations *)

(** Decide one comparison of the goal's conditionals at a time. *)
Ltac case_cond :=
  match goal with
  | |- context [?a =? ?b] => destruct (Z.eqb_spec a b)
  | |- context [?a <? ?b] => destruct (Z.ltb_spec a b)
  | |- context [?a >? ?b] => destruct (Z.gtb_spec a b)
  | |- context [?a >=? ?b] => destruct (Z.geb_spec a b)
  end; cbn [negb orb andb].

Section ControlFacts.
Context `{L : SpaLib}.

Lemma set_io_pure_counters (st : null_state) (id : Z) (data : option addr) (size : Z) :
  frame_count (post (impl_node_set_io st id data size)) = frame_count st /\
  buffer_count (post (impl_node_set_io st id data size)) = buffer_count st.
Proof. unfold impl_node_set_io. repeat case_cond; split; reflexivity. Qed.

Lemma send_command_counters (st : null_state) (command : option Z) :
  frame_count (post (impl_node_send_command st command)) = frame_count st /\
  buffer_count (post (impl_node_send_command st command)) = buffer_count st.
Proof.
  unfold impl_node_send_command. destruct command as [c |]; [| split; reflexivity].
  repeat case_cond; destruct (have_format st); split; reflexivity.
Qed.

Lemma set_param_counters (st : null_state) (id flags : Z) (param : option spa_pod) :
  frame_count (post (impl_node_set_param st id flags param)) = frame_count st /\
  buffer_count (post (impl_node_set_param st id flags param)) = buffer_count st.
Proof.
  unfold impl_node_set_param. case_cond; [| split; reflexivity].
  destruct param as [p |]; [| split; reflexivity].
  destruct (spa_format_parse p) as [res1 [mt mst]].
  destruct (spa_format_audio_raw_parse p zero_raw) as [res2 raw].
  repeat case_cond; split; reflexivity.
Qed.

Lemma enum_params_pure (st : null_state) (seq id start num : Z)
    (filter : option spa_pod) :
  post (impl_node_enum_params st seq id start num filter) = st.
Proof. unfold impl_node_enum_params. repeat case_cond; reflexivity. Qed.

Lemma add_listener_counters (st : null_state) (listener : option Z) (events data : Z) :
  frame_count (post (impl_node_add_listener st listener events data)) = frame_count st /\
  buffer_count (post (impl_node_add_listener st listener events data)) = buffer_count st.
Proof. destruct listener; split; reflexivity. Qed.

Lemma control_call_counters (st : null_state) (op : control_op) :
  frame_count (post (control_call st op)) = frame_count st /\
  buffer_count (post (control_call st op)) = buffer_count st.
Proof.
  destruct op; cbn [control_call].
  - apply add_listener_counters.
  - apply set_io_pure_counters.
  - apply send_command_counters.
  - apply set_param_counters.
  - rewrite enum_params_pure. split; reflexivity.
  - apply set_param_counters.
  - apply set_io_pure_counters.
  - split; reflexivity.
Qed.

Lemma control_run_counters (ops : list control_op) (st : null_state) :
  frame_count (control_run st ops) = frame_count st /\
  buffer_count (control_run st ops) = buffer_count st.
Proof.
  revert st. induction ops as [| op ops IH]; intros st.
  - split; reflexivity.
  - cbn [control_run fold_left].
    destruct (IH (post (control_call st op))) as [Hf Hb].
    destruct (control_call_counters st op) as [Hf' Hb'].
    unfold control_run in Hf, Hb. split; congruence.
Qed.

(** Enumeration of formats from index 0 with room for at least one result:
    one result event, whose [index] and [param] were never assigned. *)
Lemma enum_format_first (st : null_state) (seq num : Z) (filter : option spa_pod) :
  1 <= num ->
  impl_node_enum_params st seq SPA_PARAM_Format 0 num filter =
  {| ret := 1; post := st;
     emitted := [result seq 0 SPA_RESULT_TYPE_NODE_PARAMS
                   {| result_id := Assigned SPA_PARAM_Format;
                      result_index := Indeterminate;
                      result_next := Assigned 0;
                      result_param := Indeterminate |}] |}.
Proof.
  intros Hn. unfold impl_node_enum_params.
  destruct (Z.eqb_spec num 0) as [E | _]; [lia |].
  cbn [Z.eqb SPA_PARAM_Format Pos.eqb andb].
  destruct (Z.ltb_spec 0 num) as [_ | Hle]; [| lia].
  reflexivity.
Qed.

(** Enumeration from any later index: nothing is emitted and 0 is returned. *)
Lemma enum_format_rest (st : null_state) (seq start num : Z) (filter : option spa_pod) :
  1 <= start -> 1 <= num ->
  impl_node_enum_params st seq SPA_PARAM_Format start num filter =
  {| ret := 0; post := st; emitted := [] |}.
Proof.
  intros Hk Hn. unfold impl_node_enum_params.
  destruct (Z.eqb_spec num 0) as [E | _]; [lia |].
  cbn [Z.eqb SPA_PARAM_Format Pos.eqb].
  destruct (Z.eqb_spec start 0) as [E | _]; [lia |].
  reflexivity.
Qed.

(** C2, as the code has it.  Setting the Format parameter to NULL returns 0,
    clears [have_format], zeroes the stored format and emits the
    parameter-changed event; [started] keeps the value it had.  Whatever that
    value, the next [impl_node_process] is a no-op, the node having no
    format. *)
Theorem clear_format (st : null_state) (flags : Z) (m : memory) :
  impl_node_set_param st SPA_PARAM_Format flags None =
    {| ret := 0;
       post := with_format false zero_audio_info st;
       emitted := [param_changed 0 SPA_PARAM_Format None] |} /\
  have_format (post (impl_node_set_param st SPA_PARAM_Format flags None)) = false /\
  current_format (post (impl_node_set_param st SPA_PARAM_Format flags None)) =
    zero_audio_info /\
  started (post (impl_node_set_param st SPA_PARAM_Format flags None)) = started st /\
  impl_node_process (post (impl_node_set_param st SPA_PARAM_Format flags None)) m =
    Returned SPA_STATUS_OK
      (post (impl_node_set_param st SPA_PARAM_Format flags None)) m.
Proof.
  repeat split; try reflexivity.
  apply process_gated. right. reflexivity.
Qed.

(** C3.  A non-null Format parameter is accepted (a non-negative return) if
    and only if the pod parses as a descriptor and the descriptor is raw
    audio with 1 to 64 channels and a rate of 1 to 192000 Hz.  A call that
    fails leaves the whole node as it was (stored format, [have_format] and
    [started] included) and emits nothing; on a descriptor that parses and is
    not acceptable the error is [-EINVAL]; an accepted descriptor is stored,
    [have_format] is set and [started] is not touched. *)
Theorem set_format_validation (st : null_state) (flags : Z) (p : spa_pod) :
  (0 <= ret (impl_node_set_param st SPA_PARAM_Format flags (Some p)) <->
   descriptor_parses p /\ acceptable_format p) /\
  (ret (impl_node_set_param st SPA_PARAM_Format flags (Some p)) < 0 ->
   post (impl_node_set_param st SPA_PARAM_Format flags (Some p)) = st /\
   emitted (impl_node_set_param st SPA_PARAM_Format flags (Some p)) = []) /\
  (descriptor_parses p -> ~ acceptable_format p ->
   ret (impl_node_set_param st SPA_PARAM_Format flags (Some p)) = - EINVAL) /\
  (0 <= ret (impl_node_set_param st SPA_PARAM_Format flags (Some p)) ->
   post (impl_node_set_param st SPA_PARAM_Format flags (Some p)) =
     with_format true (descriptor_info p) st /\
   started (post (impl_node_set_param st SPA_PARAM_Format flags (Some p))) =
     started st).
Proof.
  unfold impl_node_set_param, descriptor_parses, acceptable_format, descriptor_info,
    descriptor_media_type, descriptor_media_subtype, descriptor_raw.
  cbn [Z.eqb SPA_PARAM_Format Pos.eqb].
  destruct (spa_format_parse p) as [res1 [mt mst]].
  destruct (spa_format_audio_raw_parse p zero_raw) as [res2 raw].
  cbn [fst snd].
  pose proof (u32_range (channels raw)) as Hch.
  pose proof (u32_range (rate raw)) as Hrate.
  unfold as_u32_raw. cbn [channels rate].
  unfold EINVAL.
  repeat case_cond; cbn [ret post emitted started with_format];
    (repeat split; intros; try reflexivity; try lia; try tauto; try intuition lia).
Qed.

(** An accepted Format parameter leaves the node with a format. *)
Lemma set_param_accepted_has_format (st : null_state) (flags : Z) (p : spa_pod) :
  0 <= ret (impl_node_set_param st SPA_PARAM_Format flags (Some p)) ->
  have_format (post (impl_node_set_param st SPA_PARAM_Format flags (Some p))) = true.
Proof.
  unfold impl_node_set_param. cbn [Z.eqb SPA_PARAM_Format Pos.eqb].
  destruct (spa_format_parse p) as [res1 [mt mst]].
  destruct (spa_format_audio_raw_parse p zero_raw) as [res2 raw].
  unfold EINVAL.
  repeat case_cond; cbn [ret post have_format with_format]; intros Hret;
    (reflexivity || lia).
Qed.

(** C5.  [Start] fails, with [-EIO], exactly when the node has no accepted
    format, and then the node is unchanged; with a format it returns 0 and
    sets [started].  In particular [Start] succeeds right after a Format
    parameter was accepted. *)
Theorem start_command (st st0 : null_state) (flags : Z) (p : spa_pod) :
  (ret (impl_node_send_command st (Some SPA_NODE_COMMAND_Start)) = - EIO <->
   have_format st = false) /\
  (ret (impl_node_send_command st (Some SPA_NODE_COMMAND_Start)) < 0 <->
   have_format st = false) /\
  impl_node_send_command st (Some SPA_NODE_COMMAND_Start) =
    (if have_format st
     then {| ret := 0; post := with_started true st; emitted := [] |}
     else {| ret := - EIO; post := st; emitted := [] |}) /\
  (0 <= ret (impl_node_set_param st0 SPA_PARAM_Format flags (Some p)) ->
   ret (impl_node_send_command
          (post (impl_node_set_param st0 SPA_PARAM_Format flags (Some p)))
          (Some SPA_NODE_COMMAND_Start)) = 0 /\
   started (post (impl_node_send_command
          (post (impl_node_set_param st0 SPA_PARAM_Format flags (Some p)))
          (Some SPA_NODE_COMMAND_Start))) = true).
Proof.
  assert (E : forall s, impl_node_send_command s (Some SPA_NODE_COMMAND_Start) =
                (if have_format s
                 then {| ret := 0; post := with_started true s; emitted := [] |}
                 else {| ret := - EIO; post := s; emitted := [] |})).
  { intros s. unfold impl_node_send_command.
    cbn [Z.eqb SPA_NODE_COMMAND_Start Pos.eqb]. destruct (have_format s); reflexivity. }
  split; [| split; [| split]].
  - rewrite E. destruct (have_format st); cbn [ret]; unfold EIO; split;
      intros H; (discriminate || lia || reflexivity).
  - rewrite E. destruct (have_format st); cbn [ret]; unfold EIO; split;
      intros H; (discriminate || lia || reflexivity).
  - apply E.
  - intros Hok.
    rewrite E, (set_param_accepted_has_format st0 flags p Hok).
    split; reflexivity.
Qed.

(** C7.  For an I/O kind other than [SPA_IO_Buffers] and [SPA_IO_RateMatch],
    [impl_node_set_io] fails with [-ENOENT] (the value the source documents
    for a kind that is not supported) and leaves the node, with both stored
    pointers, as it was. *)
Theorem set_io_unknown_kind (st : null_state) (id : Z) (data : option addr) (size : Z) :
  id <> SPA_IO_Buffers -> id <> SPA_IO_RateMatch ->
  impl_node_set_io st id data size =
    {| ret := - ENOENT; post := st; emitted := [] |} /\
  ret (impl_node_set_io st id data size) < 0 /\
  io (post (impl_node_set_io st id data size)) = io st /\
  rate_match (post (impl_node_set_io st id data size)) = rate_match st.
Proof.
  intros Hb Hr. unfold impl_node_set_io.
  destruct (Z.eqb_spec id SPA_IO_Buffers) as [E | _]; [contradiction |].
  destruct (Z.eqb_spec id SPA_IO_RateMatch) as [E | _]; [contradiction |].
  cbn [ret post]. unfold ENOENT. repeat split; try reflexivity; lia.
Qed.

(** C8, at the first page.  Enumerating formats from index 0 with room for
    one result returns 1, leaves the node as it was and emits one result
    event.  The result carries the parameter kind and [next] equal to the
    start index; its [index] and [param] members were never assigned, and
    the pod built for the advertised format is not part of it. *)
Theorem enum_format_first_page (st : null_state) (seq : Z) (filter : option spa_pod) :
  impl_node_enum_params st seq SPA_PARAM_Format 0 1 filter =
  {| ret := 1; post := st;
     emitted := [result seq 0 SPA_RESULT_TYPE_NODE_PARAMS
                   {| result_id := Assigned SPA_PARAM_Format;
                      result_index := Indeterminate;
                      result_next := Assigned 0;
                      result_param := Indeterminate |}] |} /\
  map (fun e => match e with
                | result _ _ _ r => result_param r
                | param_changed _ _ _ => Indeterminate
                end)
      (emitted (impl_node_enum_params st seq SPA_PARAM_Format 0 1 filter)) =
  [Indeterminate].
Proof.
  rewrite enum_format_first by lia. split; reflexivity.
Qed.

(** C9.  Clearing the format leaves [frame_count] and [buffer_count] as they
    were, and so does every sequence of control calls (listener
    registration, I/O binding, commands, parameter setting and enumeration,
    their port-level forms, cleanup). *)
Theorem counters_survive_control (st : null_state) (flags : Z) (ops : list control_op) :
  frame_count (post (impl_node_set_param st SPA_PARAM_Format flags None)) =
    frame_count st /\
  buffer_count (post (impl_node_set_param st SPA_PARAM_Format flags None)) =
    buffer_count st /\
  frame_count (control_run st ops) = frame_count st /\
  buffer_count (control_run st ops) = buffer_count st.
Proof.
  destruct (control_run_counters ops st) as [Hf Hb].
  repeat split; try reflexivity; assumption.
Qed.

(** C10.  With a maximum count of 0, parameter enumeration fails with
    [-EINVAL] for every parameter kind and start index, emits nothing and
    leaves the node as it was. *)
Theorem enum_params_zero_count (st : null_state) (seq id start : Z)
    (filter : option spa_pod) :
  impl_node_enum_params st seq id start 0 filter =
    {| ret := - EINVAL; post := st; emitted := [] |} /\
  ret (impl_node_enum_params st seq id start 0 filter) < 0.
Proof.
  unfold impl_node_enum_params. cbn [Z.eqb ret]. unfold EINVAL.
  split; [reflexivity | lia].
Qed.

End ControlFacts.

(** C2 as stated fails: a node that was configured and started is still
    started after its format is cleared. *)
Lemma clear_format_keeps_started :
  started (running_with stereo_f32) = true /\
  ret (@impl_node_set_param sample_lib
         (running_with stereo_f32) SPA_PARAM_Format 0 None) = 0 /\
  have_format
    (post (@impl_node_set_param sample_lib
             (running_with stereo_f32) SPA_PARAM_Format 0 None)) = false /\
  started
    (post (@impl_node_set_param sample_lib
             (running_with stereo_f32) SPA_PARAM_Format 0 None)) <> false.
Proof. repeat split; try reflexivity. simpl. discriminate. Qed.

Lemma set_io_unknown_kind_witness :
  @impl_node_set_io sample_lib (running_with stereo_f32) 3 (Some 2%positive) 64 =
    {| ret := - ENOENT; post := running_with stereo_f32; emitted := [] |} /\
  ret (@impl_node_set_io sample_lib (running_with stereo_f32) 3 (Some 2%positive) 64) < 0 /\
  io (post (@impl_node_set_io sample_lib (running_with stereo_f32) 3 (Some 2%positive) 64)) =
    io (running_with stereo_f32) /\
  rate_match
    (post (@impl_node_set_io sample_lib (running_with stereo_f32) 3 (Some 2%positive) 64)) =
    rate_match (running_with stereo_f32).
Proof.
  apply (@set_io_unknown_kind sample_lib (running_with stereo_f32) 3 (Some 2%positive) 64).
  - unfold SPA_IO_Buffers. lia.
  - unfold SPA_IO_RateMatch. lia.
Defined.

(** ** The operations on concrete inputs *)

Example accepts_stereo_f32 :
  ret (impl_node_set_param null_state_init SPA_PARAM_Format 0 (Some stereo_f32)) = 0 /\
  have_format (configured_with stereo_f32) = true.
Proof. split; reflexivity. Qed.

Example rejects_video :
  impl_node_set_param (running_with stereo_f32) SPA_PARAM_Format 0 (Some video_pod) =
  {| ret := - EINVAL; post := running_with stereo_f32; emitted := [] |}.
Proof. reflexivity. Qed.

Example rejects_unparsable :
  impl_node_set_param (running_with stereo_f32) SPA_PARAM_Format 0 (Some NotAFormat) =
  {| ret := - EINVAL; post := running_with stereo_f32; emitted := [] |}.
Proof. reflexivity. Qed.

Example rejects_65_channels :
  ret (impl_node_set_param null_state_init SPA_PARAM_Format 0
         (Some (FormatObject SPA_MEDIA_TYPE_audio SPA_MEDIA_SUBTYPE_raw
                  {| format := SPA_AUDIO_FORMAT_F32P; raw_flags := 0;
                     rate := 48000; channels := 65 |}))) = - EINVAL.
Proof. reflexivity. Qed.

Example start_needs_format :
  @impl_node_send_command sample_lib null_state_init (Some SPA_NODE_COMMAND_Start) =
  {| ret := - EIO; post := null_state_init; emitted := [] |}.
Proof. reflexivity. Qed.

Example unknown_command :
  ret (@impl_node_send_command sample_lib null_state_init (Some 5)) = - ENOTSUP.
Proof. reflexivity. Qed.

Example small_region_is_unbound :
  io (post (impl_node_set_io (running_with stereo_f32) SPA_IO_Buffers (Some 1%positive) 4)) =
  None.
Proof. reflexivity. Qed.

(** The scenario of the specification: 2 channels at 48000 Hz, one buffer
    with a chunk of 4096 bytes, two processing calls.  The first adds 512
    frames and consumes the buffer; the second finds INVALID and adds
    nothing. *)
Example two_quanta :
  match impl_node_process (running_with stereo_f32) (memory_with 0) with
  | Returned res1 st1 m1 =>
    res1 = SPA_STATUS_OK /\ frame_count st1 = 512 /\ buffer_count st1 = 1 /\
    match impl_node_process st1 m1 with
    | Returned res2 st2 m2 =>
      res2 = SPA_STATUS_OK /\ frame_count st2 = 512 /\ buffer_count st2 = 1
    | Undefined => False
    end
  | Undefined => False
  end.
Proof. vm_compute. repeat split; reflexivity. Qed.

Example enum_from_index_one :
  impl_node_enum_params (running_with stereo_f32) 7 SPA_PARAM_Format 1 4 None =
  {| ret := 0; post := running_with stereo_f32; emitted := [] |}.
Proof. reflexivity. Qed.

(** * Further properties of the real-time routine *)

(** A stored format that passed the checks of [impl_node_set_param]. *)
Definition format_ok (f : spa_audio_info) : Prop :=
  media_type f = SPA_MEDIA_TYPE_audio /\
  media_subtype f = SPA_MEDIA_SUBTYPE_raw /\
  1 <= channels (info_raw f) <= 64 /\
  1 <= rate (info_raw f) <= 192000.

(** What every operation of the node maintains: a node that has a format
    holds one that passed the checks, and both counters are 64-bit values. *)
Definition node_inv (st : null_state) : Prop :=
  (have_format st = true -> format_ok (current_format st)) /\
  0 <= frame_count st < 2 ^ 64 /\
  0 <= buffer_count st < 2 ^ 64.

(** An area the routine can read without leaving its arrays: the slot array
    has an entry for every identifier below [MAX_BUFFERS], and every buffer
    in it has at least one data. *)
Definition area_ok (a : spa_io_buffers) : bool :=
  (MAX_BUFFERS <=? Z.of_nat (length (buffers a))) &&
  forallb (fun slot => match slot with
                       | Some buf => negb (Nat.eqb (length (datas buf)) 0)
                       | None => true
                       end) (buffers a).

(** The result of a processing call with [f] applied to the node. *)
Definition rt_map (f : null_state -> null_state) (r : rt_result) : rt_result :=
  match r with
  | Undefined => Undefined
  | Returned res s m => Returned res (f s) m
  end.

(** An area with a NULL slot, a buffer without chunk and then sixteen full
    buffers, for the examples. *)
Definition buffer_no_chunk : spa_buffer := {| datas := [ {| chunk := None |} ] |}.
Definition area_mixed (id : Z) : spa_io_buffers :=
  {| status := 0; buffer_id := id;
     buffers := None :: Some buffer_no_chunk :: repeat (Some buffer_4096) 16 |}.
Definition memory_mixed (id : Z) : memory := {[ 1%positive := area_mixed id ]}.

Section ProcessFacts.
Variables (st : null_state) (m : memory).

(** X1.  A processing call that returns, returns [SPA_STATUS_OK]; in the node
    it changes nothing but the two counters; in memory it changes nothing
    but the identifier of the bound area, which it leaves as it was or sets
    to INVALID. *)
Theorem process_footprint (res : Z) (st' : null_state) (m' : memory) :
  impl_node_process st m = Returned res st' m' ->
  res = SPA_STATUS_OK /\
  (hooks st' = hooks st /\ have_format st' = have_format st /\
   current_format st' = current_format st /\ io st' = io st /\
   rate_match st' = rate_match st /\ started st' = started st /\
   following st' = following st) /\
  (forall q : addr, io st <> Some q -> m' !! q = m !! q) /\
  (forall (p : addr) (area : spa_io_buffers),
      io st = Some p -> m !! p = Some area ->
      exists area' : spa_io_buffers,
        m' !! p = Some area' /\ status area' = status area /\
        buffers area' = buffers area /\
        (buffer_id area' = buffer_id area \/ buffer_id area' = SPA_ID_INVALID)).
Proof.
  unfold impl_node_process, account_chunk. intros H.
  repeat case_match; simplify_eq; split_and!; try done.
  all: try (intros q Hq; rewrite lookup_insert_ne by congruence; done).
  all: intros p' area' Hio Hm; simplify_eq.
  all: try (eexists; split; [eassumption |]; split_and!; auto; fail).
  all: eexists; split; [apply lookup_insert_eq |]; split_and!; auto.
Qed.

Lemma process_keeps_binding (res : Z) (st' : null_state) (m' : memory) :
  impl_node_process st m = Returned res st' m' -> io st' = io st.
Proof.
  unfold impl_node_process, account_chunk. intros H.
  repeat case_match; simplify_eq; done.
Qed.

(** X2.  One buffer per quantum: after a processing call that returned, a
    second call without any host write in between returns [SPA_STATUS_OK]
    and changes nothing. *)
Theorem process_second_call_noop (res : Z) (st' : null_state) (m' : memory) :
  impl_node_process st m = Returned res st' m' ->
  impl_node_process st' m' = Returned SPA_STATUS_OK st' m'.
Proof.
  intros H.
  destruct (negb (started st) || negb (have_format st)) eqn:Hgate.
  { unfold impl_node_process in H. rewrite Hgate in H. simplify_eq.
    unfold impl_node_process. rewrite Hgate. reflexivity. }
  destruct (io st) as [p |] eqn:Hio.
  2: { unfold impl_node_process in H. rewrite Hgate, Hio in H. simplify_eq.
       apply process_unbound. exact Hio. }
  destruct (m !! p) as [area |] eqn:Hm.
  2: { unfold impl_node_process in H. rewrite Hgate, Hio, Hm in H. discriminate. }
  destruct (Z.eqb_spec (buffer_id area) SPA_ID_INVALID) as [Hid | Hid].
  { rewrite (process_idle st m p area Hio Hm Hid) in H. simplify_eq.
    apply (process_idle st' m' p area); assumption. }
  pose proof (process_keeps_binding res st' m' H) as Hio'.
  assert (Hconsumed : m' = <[p := with_buffer_id SPA_ID_INVALID area]> m).
  { unfold impl_node_process in H. rewrite Hgate, Hio, Hm in H.
    destruct (Z.eqb_spec (buffer_id area) SPA_ID_INVALID); [contradiction |].
    repeat case_match; simplify_eq; reflexivity. }
  apply (process_idle st' m' p (with_buffer_id SPA_ID_INVALID area)).
  - congruence.
  - rewrite Hconsumed. apply lookup_insert_eq.
  - reflexivity.
Qed.

End ProcessFacts.

Lemma process_footprint_witness :
  impl_node_process (running_with stereo_f32) (memory_with 0) =
    Returned SPA_STATUS_OK
      (with_counters 512 1 (running_with stereo_f32))
      (<[1%positive := with_buffer_id SPA_ID_INVALID (area_with 0)]> (memory_with 0)) /\
  started (with_counters 512 1 (running_with stereo_f32)) =
    started (running_with stereo_f32) /\
  io (with_counters 512 1 (running_with stereo_f32)) = io (running_with stereo_f32).
Proof.
  assert (H : impl_node_process (running_with stereo_f32) (memory_with 0) =
              Returned SPA_STATUS_OK
                (with_counters 512 1 (running_with stereo_f32))
                (<[1%positive := with_buffer_id SPA_ID_INVALID (area_with 0)]>
                   (memory_with 0))).
  { vm_compute. reflexivity. }
  split; [exact H |].
  destruct (process_footprint _ _ _ _ _ H) as (_ & (_ & _ & _ & Hio & _ & Hst & _) & _).
  split; [exact Hst | exact Hio].
Defined.

Lemma process_second_call_noop_witness :
  impl_node_process
    (with_counters 512 1 (running_with stereo_f32))
    (<[1%positive := with_buffer_id SPA_ID_INVALID (area_with 0)]> (memory_with 0)) =
  Returned SPA_STATUS_OK
    (with_counters 512 1 (running_with stereo_f32))
    (<[1%positive := with_buffer_id SPA_ID_INVALID (area_with 0)]> (memory_with 0)).
Proof.
  apply (process_second_call_noop (running_with stereo_f32) (memory_with 0)
           SPA_STATUS_OK).
  vm_compute. reflexivity.
Defined.

Section ProcessMore.
Variables (st : null_state) (m : memory).

(** X3.  A NULL slot, or a buffer whose first data has no chunk, is consumed
    without being counted: the identifier becomes INVALID and the node, with
    both counters, is as before. *)
Theorem process_drops_uncounted (p : addr) (area : spa_io_buffers) :
  started st = true -> have_format st = true ->
  io st = Some p -> m !! p = Some area ->
  0 <= buffer_id area < MAX_BUFFERS ->
  buffers area !! Z.to_nat (buffer_id area) = Some None \/
  (exists (buf : spa_buffer) (d : spa_data),
      buffers area !! Z.to_nat (buffer_id area) = Some (Some buf) /\
      datas buf !! 0%nat = Some d /\ chunk d = None) ->
  impl_node_process st m =
  Returned SPA_STATUS_OK st (<[p := with_buffer_id SPA_ID_INVALID area]> m).
Proof.
  intros Hs Hf Hio Hm Hid Hslot.
  rewrite (process_running st m p area) by
    (try assumption; unfold MAX_BUFFERS, SPA_ID_INVALID in *; lia).
  destruct (Z.geb_spec (buffer_id area) MAX_BUFFERS) as [Hge | _]; [lia |].
  destruct Hslot as [Hnull | (buf & d & Hbuf & Hd & Hc)].
  - rewrite Hnull. reflexivity.
  - rewrite Hbuf, Hd, Hc. reflexivity.
Qed.

(** X4.  The routine has defined behaviour, and returns [SPA_STATUS_OK],
    whenever the node satisfies [node_inv] and the bound area, if any, is
    present in memory and readable ([area_ok]). *)
Theorem process_defined :
  node_inv st ->
  (forall p : addr, io st = Some p ->
     exists area : spa_io_buffers, m !! p = Some area /\ area_ok area = true) ->
  exists (st' : null_state) (m' : memory),
    impl_node_process st m = Returned SPA_STATUS_OK st' m'.
Proof.
  intros (Hfmt & _ & _) Hbound.
  destruct (negb (started st) || negb (have_format st)) eqn:Hgate.
  { exists st, m. unfold impl_node_process. rewrite Hgate. reflexivity. }
  apply orb_false_elim in Hgate as [Hs Hf].
  apply negb_false_iff in Hs. apply negb_false_iff in Hf.
  destruct (io st) as [p |] eqn:Hio.
  2: { exists st, m. apply process_unbound. exact Hio. }
  destruct (Hbound p eq_refl) as (area & Hm & Hok).
  destruct (Z.eqb_spec (buffer_id area) SPA_ID_INVALID) as [Hid | Hid].
  { exists st, m. apply (process_idle st m p area); assumption. }
  rewrite (process_running st m p area) by assumption.
  destruct (Z.geb_spec (buffer_id area) MAX_BUFFERS) as [Hge | Hlt];
    [eexists _, _; reflexivity |].
  unfold area_ok in Hok. apply andb_true_iff in Hok as [Hlen Hall].
  apply Z.leb_le in Hlen.
  destruct (buffers area !! Z.to_nat (buffer_id area)) as [slot |] eqn:Hslot.
  2: { apply lookup_ge_None in Hslot. unfold MAX_BUFFERS in *. lia. }
  destruct slot as [buf |]; [| eexists _, _; reflexivity].
  assert (Hdatas : negb (Nat.eqb (length (datas buf)) 0) = true).
  { rewrite forallb_forall in Hall.
    apply (Hall (Some buf)). apply list_elem_of_In.
    apply list_elem_of_lookup. eexists. exact Hslot. }
  destruct (datas buf) as [| d ds] eqn:Hd; [discriminate |].
  cbn [lookup list_lookup].
  destruct (chunk d) as [c |]; [| eexists _, _; reflexivity].
  unfold account_chunk.
  destruct (Hfmt Hf) as (_ & _ & Hch & _).
  destruct (Z.eqb_spec
              (u64 (channels (info_raw (current_format st)) * sizeof_float)) 0)
    as [Hz | _].
  { unfold sizeof_float in Hz. rewrite u64_small in Hz by lia. lia. }
  eexists _, _. reflexivity.
Qed.

(** Processing keeps [node_inv]. *)
Lemma process_keeps_inv (res : Z) (st' : null_state) (m' : memory) :
  node_inv st -> impl_node_process st m = Returned res st' m' -> node_inv st'.
Proof.
  intros (Hfmt & Hfc & Hbc) H. unfold impl_node_process, account_chunk in H.
  repeat case_match; simplify_eq; try (split; [assumption | split; assumption]).
  split; [exact Hfmt |]. cbn [frame_count buffer_count with_counters].
  unfold u64. split; apply Z.mod_pos_bound; lia.
Qed.

(** X5.  The rate-match binding has no effect on processing: with any
    pointer stored in [rate_match] the call returns the same status, the same
    counters and the same memory. *)
Theorem process_ignores_rate_match (q : option addr) :
  impl_node_process (with_rate_match q st) m =
  rt_map (with_rate_match q) (impl_node_process st m).
Proof.
  unfold impl_node_process, account_chunk.
  cbn [started have_format io current_format with_rate_match].
  repeat case_match; simplify_eq; reflexivity.
Qed.

End ProcessMore.

Lemma process_drops_uncounted_witness :
  impl_node_process (running_with stereo_f32) (memory_mixed 0) =
    Returned SPA_STATUS_OK (running_with stereo_f32)
      (<[1%positive := with_buffer_id SPA_ID_INVALID (area_mixed 0)]> (memory_mixed 0)) /\
  impl_node_process (running_with stereo_f32) (memory_mixed 1) =
    Returned SPA_STATUS_OK (running_with stereo_f32)
      (<[1%positive := with_buffer_id SPA_ID_INVALID (area_mixed 1)]> (memory_mixed 1)).
Proof.
  split.
  - apply (process_drops_uncounted (running_with stereo_f32) (memory_mixed 0)
             1%positive (area_mixed 0));
      [reflexivity | reflexivity | reflexivity | reflexivity
      | unfold MAX_BUFFERS; simpl; lia | left; reflexivity].
  - apply (process_drops_uncounted (running_with stereo_f32) (memory_mixed 1)
             1%positive (area_mixed 1));
      [reflexivity | reflexivity | reflexivity | reflexivity
      | unfold MAX_BUFFERS; simpl; lia
      | right; exists buffer_no_chunk, {| chunk := None |}; repeat split; reflexivity].
Defined.

Lemma running_f32_inv : node_inv (running_with stereo_f32).
Proof.
  unfold node_inv, format_ok. cbn.
  unfold SPA_MEDIA_TYPE_audio, SPA_MEDIA_SUBTYPE_raw.
  split; [intros _ |]; repeat split; try reflexivity; try discriminate; lia.
Qed.

Lemma process_defined_witness :
  exists (st' : null_state) (m' : memory),
    impl_node_process (running_with stereo_f32) (memory_mixed 5) =
    Returned SPA_STATUS_OK st' m'.
Proof.
  apply (process_defined (running_with stereo_f32) (memory_mixed 5)).
  - exact running_f32_inv.
  - intros p Hp. exists (area_mixed 5). split; [| reflexivity].
    injection Hp as Hp. rewrite <- Hp. reflexivity.
Defined.

(** * Further properties of the control operations *)

(** ** The host's view: control calls, writes to shared memory and quanta *)

Inductive host_step `{SpaLib} : Type :=
| Control (op : control_op)
| HostWrite (p : addr) (area : spa_io_buffers)
| Quantum.

Definition host_step_run `{SpaLib} (w : null_state * memory) (s : host_step)
    : option (null_state * memory) :=
  match s with
  | Control op => Some (post (control_call (fst w) op), snd w)
  | HostWrite p area => Some (fst w, <[p := area]> (snd w))
  | Quantum =>
    match impl_node_process (fst w) (snd w) with
    | Returned _ st' m' => Some (st', m')
    | Undefined => None
    end
  end.

Fixpoint host_run `{SpaLib} (w : null_state * memory) (steps : list host_step)
    : option (null_state * memory) :=
  match steps with
  | [] => Some w
  | s :: rest =>
    match host_step_run w s with
    | Some w' => host_run w' rest
    | None => None
    end
  end.

Section ControlMore.
Context `{L : SpaLib}.

Lemma set_param_keeps_inv (st : null_state) (id flags : Z) (param : option spa_pod) :
  node_inv st -> node_inv (post (impl_node_set_param st id flags param)).
Proof.
  intros Hinv. pose proof Hinv as (Hfmt & Hfc & Hbc). unfold impl_node_set_param.
  case_cond; [| exact Hinv].
  destruct param as [p |].
  2: { split; [intros Hf; discriminate | split; assumption]. }
  destruct (spa_format_parse p) as [res1 [mt mst]].
  destruct (spa_format_audio_raw_parse p zero_raw) as [res2 raw].
  pose proof (u32_range (channels raw)) as Hch.
  pose proof (u32_range (rate raw)) as Hrate.
  unfold as_u32_raw. cbn [channels rate].
  repeat case_cond; cbn [post]; try exact Hinv.
  split; [| split; assumption].
  intros _. unfold format_ok. cbn. repeat split; try assumption; lia.
Qed.

Lemma control_call_keeps_inv (st : null_state) (op : control_op) :
  node_inv st -> node_inv (post (control_call st op)).
Proof.
  intros Hinv. destruct op; cbn [control_call].
  - destruct listener; exact Hinv.
  - unfold impl_node_set_io. repeat case_cond; exact Hinv.
  - unfold impl_node_send_command. destruct command as [c |]; [| exact Hinv].
    repeat case_cond; destruct (have_format st) eqn:Hf; cbn [negb post];
      try exact Hinv; destruct Hinv as (Hfmt & Hfc & Hbc);
      (split; [exact Hfmt | split; assumption]).
  - apply set_param_keeps_inv. exact Hinv.
  - rewrite enum_params_pure. exact Hinv.
  - apply set_param_keeps_inv. exact Hinv.
  - unfold impl_node_set_port_io, impl_node_set_io. repeat case_cond; exact Hinv.
  - destruct Hinv as (Hfmt & Hfc & Hbc).
    split; [intros Hf; discriminate | split; assumption].
Qed.

Lemma host_run_keeps_inv (steps : list host_step) (w w' : null_state * memory) :
  node_inv (fst w) -> host_run w steps = Some w' -> node_inv (fst w').
Proof.
  revert w. induction steps as [| s rest IH]; intros w Hinv Hrun.
  - cbn in Hrun. simplify_eq. exact Hinv.
  - cbn [host_run] in Hrun.
    destruct (host_step_run w s) as [w1 |] eqn:Hstep; [| discriminate].
    apply (IH w1); [| exact Hrun].
    destruct s as [op | p area |]; cbn [host_step_run] in Hstep.
    + simplify_eq. apply control_call_keeps_inv. exact Hinv.
    + simplify_eq. exact Hinv.
    + destruct (impl_node_process (fst w) (snd w)) as [| res st' m'] eqn:Hp;
        [discriminate |].
      simplify_eq. apply (process_keeps_inv (fst w) (snd w) res st' m'); assumption.
Qed.

(** X6.  In every state a freshly initialised node reaches through control
    calls, host writes to shared memory and processing calls, a node that has
    a format holds raw audio with 1 to 64 channels and a rate of 1 to 192000
    Hz, and both counters are 64-bit values. *)
Theorem reachable_node_inv (steps : list host_step) (m0 : memory)
    (st : null_state) (m : memory) :
  host_run (null_state_init, m0) steps = Some (st, m) -> node_inv st.
Proof.
  intros Hrun.
  apply (host_run_keeps_inv steps (null_state_init, m0) (st, m)); [| exact Hrun].
  split; [intros Hf; discriminate |]. cbn. lia.
Qed.

End ControlMore.

(** Configure, bind, start, hand over one buffer, run one quantum. *)
Definition one_quantum_session : list (@host_step sample_lib) :=
  [Control (SetParam SPA_PARAM_Format 0 (Some stereo_f32));
   Control (SetIo SPA_IO_Buffers (Some 1%positive) 8);
   Control (SendCommand (Some SPA_NODE_COMMAND_Start));
   HostWrite 1%positive (area_with 0);
   Quantum].

Lemma reachable_node_inv_witness :
  node_inv (with_counters 512 1 (running_with stereo_f32)).
Proof.
  apply (@reachable_node_inv sample_lib one_quantum_session
           ∅
           (with_counters 512 1 (running_with stereo_f32))
           (<[1%positive := with_buffer_id SPA_ID_INVALID (area_with 0)]>
              (<[1%positive := area_with 0]> ∅))).
  vm_compute. reflexivity.
Defined.



Section Commands.
Context `{L : SpaLib}.

(** X7.  Suspend and Pause always succeed, clear [started] and keep the
    format; on a node that was running with a format, a following Start
    brings back exactly the node there was before. *)
Theorem pause_then_start (st : null_state) (c : Z) :
  c = SPA_NODE_COMMAND_Suspend \/ c = SPA_NODE_COMMAND_Pause ->
  have_format st = true -> started st = true ->
  impl_node_send_command st (Some c) =
    {| ret := 0; post := with_started false st; emitted := [] |} /\
  impl_node_send_command (post (impl_node_send_command st (Some c)))
    (Some SPA_NODE_COMMAND_Start) =
    {| ret := 0; post := st; emitted := [] |}.
Proof.
  intros Hc Hf Hs.
  assert (E : impl_node_send_command st (Some c) =
              {| ret := 0; post := with_started false st; emitted := [] |}).
  { destruct Hc as [-> | ->]; reflexivity. }
  rewrite E. split; [reflexivity |].
  unfold impl_node_send_command.
  cbn [Z.eqb SPA_NODE_COMMAND_Start Pos.eqb post have_format with_started].
  rewrite Hf. cbn [negb].
  destruct st; cbn in *; subst; reflexivity.
Qed.

(** X8.  [impl_node_send_command] returns 0, [-EINVAL], [-EIO] or
    [-ENOTSUP].  It fails exactly for a NULL command, for Start on a node
    without format, and for a command other than Start, Suspend and Pause;
    a failing call leaves the node as it was, and no call emits an event. *)
Theorem send_command_failures (st : null_state) (command : option Z) :
  (ret (impl_node_send_command st command) < 0 <->
   command = None \/
   (command = Some SPA_NODE_COMMAND_Start /\ have_format st = false) \/
   (exists c : Z, command = Some c /\ c <> SPA_NODE_COMMAND_Start /\
                  c <> SPA_NODE_COMMAND_Suspend /\ c <> SPA_NODE_COMMAND_Pause)) /\
  (ret (impl_node_send_command st command) < 0 ->
   post (impl_node_send_command st command) = st) /\
  (0 <= ret (impl_node_send_command st command) ->
   ret (impl_node_send_command st command) = 0) /\
  emitted (impl_node_send_command st command) = [].
Proof.
  unfold impl_node_send_command.
  destruct command as [c |].
  2: { cbn. unfold EINVAL. split_and!; try done; try lia.
       split; [intros _; left; reflexivity | lia]. }
  unfold SPA_NODE_COMMAND_Start, SPA_NODE_COMMAND_Suspend, SPA_NODE_COMMAND_Pause,
    EIO, ENOTSUP.
  repeat case_cond; destruct (have_format st) eqn:Hf; cbn [negb ret post emitted];
    split_and!; try done; try lia.
  all: split; [try lia | intros [Hn | [[Hc Hff] | (c' & Hc & H1 & H2 & H3)]];
               simplify_eq; try lia; try congruence].
  all: intros _.
  all: try (right; left; split; [subst; reflexivity | reflexivity]; fail).
  all: right; right; exists c; split_and!; auto; lia.
Qed.

(** X9.  Once the format is cleared, or the node cleaned up, Start is
    refused with [-EIO] and processing does nothing, until a format is
    accepted again. *)
Theorem start_refused_without_format (st : null_state) (flags : Z) (m : memory) :
  ret (impl_node_send_command
         (post (impl_node_set_param st SPA_PARAM_Format flags None))
         (Some SPA_NODE_COMMAND_Start)) = - EIO /\
  ret (impl_node_send_command (null_state_cleanup st)
         (Some SPA_NODE_COMMAND_Start)) = - EIO /\
  impl_node_process (null_state_cleanup st) m =
    Returned SPA_STATUS_OK (null_state_cleanup st) m.
Proof.
  split_and!.
  - reflexivity.
  - reflexivity.
  - apply process_gated. left. reflexivity.
Qed.

(** X10.  Binding the buffer-queue area with a NULL region, or with a region
    smaller than [struct spa_io_buffers], succeeds and unbinds: the next
    processing call does nothing, whatever the memory holds. *)
Theorem set_io_unbinds (st : null_state) (data : option addr) (size : Z) (m : memory) :
  data = None \/ size < sizeof_spa_io_buffers ->
  ret (impl_node_set_io st SPA_IO_Buffers data size) = 0 /\
  io (post (impl_node_set_io st SPA_IO_Buffers data size)) = None /\
  impl_node_process (post (impl_node_set_io st SPA_IO_Buffers data size)) m =
    Returned SPA_STATUS_OK (post (impl_node_set_io st SPA_IO_Buffers data size)) m.
Proof.
  intros H.
  assert (E : io (post (impl_node_set_io st SPA_IO_Buffers data size)) = None).
  { unfold impl_node_set_io. cbn [Z.eqb SPA_IO_Buffers Pos.eqb post io with_io].
    destruct H as [-> | Hlt]; [destruct (size >=? sizeof_spa_io_buffers); reflexivity |].
    destruct (Z.geb_spec size sizeof_spa_io_buffers); [lia | reflexivity]. }
  split_and!; [reflexivity | exact E |].
  apply process_unbound. exact E.
Qed.

(** X11.  [impl_node_set_param] emits the parameter-changed event, once and
    with the kind and pod it was given, exactly when it succeeds; a failing
    call emits nothing and leaves the node as it was; a kind other than
    Format fails with [-ENOTSUP]; and no call writes [started], the I/O
    bindings or the hook list. *)
Theorem set_param_event_on_success (st : null_state) (id flags : Z)
    (param : option spa_pod) :
  (0 <= ret (impl_node_set_param st id flags param) ->
   emitted (impl_node_set_param st id flags param) = [param_changed 0 id param]) /\
  (ret (impl_node_set_param st id flags param) < 0 ->
   emitted (impl_node_set_param st id flags param) = [] /\
   post (impl_node_set_param st id flags param) = st) /\
  (id <> SPA_PARAM_Format ->
   ret (impl_node_set_param st id flags param) = - ENOTSUP) /\
  started (post (impl_node_set_param st id flags param)) = started st /\
  io (post (impl_node_set_param st id flags param)) = io st /\
  rate_match (post (impl_node_set_param st id flags param)) = rate_match st /\
  hooks (post (impl_node_set_param st id flags param)) = hooks st.
Proof.
  unfold impl_node_set_param. unfold EINVAL, ENOTSUP.
  case_cond.
  2: { cbn. split_and!; try done; lia. }
  destruct param as [p |].
  2: { cbn. split_and!; try done; lia. }
  destruct (spa_format_parse p) as [res1 [mt mst]].
  destruct (spa_format_audio_raw_parse p zero_raw) as [res2 raw].
  repeat case_cond; cbn [ret post emitted started io rate_match hooks with_format];
    split_and!; try done; try lia; intros; subst; try reflexivity; try lia.
Qed.

(** X12.  [impl_node_enum_params] never changes the node; the value it
    returns, when not an error, is the number of result events it emitted;
    and it emits one, returning 1, exactly for the Format kind from index 0
    with a positive maximum count. *)
Theorem enum_params_count (st : null_state) (seq id start num : Z)
    (filter : option spa_pod) :
  post (impl_node_enum_params st seq id start num filter) = st /\
  (0 <= ret (impl_node_enum_params st seq id start num filter) ->
   ret (impl_node_enum_params st seq id start num filter) =
   Z.of_nat (length (emitted (impl_node_enum_params st seq id start num filter)))) /\
  (ret (impl_node_enum_params st seq id start num filter) = 1 <->
   id = SPA_PARAM_Format /\ start = 0 /\ 0 < num) /\
  (ret (impl_node_enum_params st seq id start num filter) < 0 <-> num = 0).
Proof.
  unfold impl_node_enum_params. unfold EINVAL.
  repeat case_cond; cbn [ret post emitted length];
    split_and!; try done; try lia; try (split; intros; try lia; try tauto; fail).
  all: try (split; [intros; lia | intros (? & ? & ?); congruence || lia]).
  all: try (split; [intros _; split_and!; auto; lia | intros _; reflexivity]).
Qed.

(** X13.  Cleanup may be repeated: a second cleanup changes nothing.  It
    empties the hook list and clears [started] and [have_format], and keeps
    the counters, the stored format and the I/O bindings. *)
Theorem cleanup_idempotent (st : null_state) :
  null_state_cleanup (null_state_cleanup st) = null_state_cleanup st /\
  hooks (null_state_cleanup st) = [] /\
  started (null_state_cleanup st) = false /\
  have_format (null_state_cleanup st) = false /\
  frame_count (null_state_cleanup st) = frame_count st /\
  buffer_count (null_state_cleanup st) = buffer_count st /\
  current_format (null_state_cleanup st) = current_format st /\
  io (null_state_cleanup st) = io st /\
  rate_match (null_state_cleanup st) = rate_match st.
Proof. split_and!; reflexivity. Qed.




End Commands.

Lemma pause_then_start_witness :
  @impl_node_send_command sample_lib
    (post (@impl_node_send_command sample_lib (running_with stereo_f32)
             (Some SPA_NODE_COMMAND_Pause)))
    (Some SPA_NODE_COMMAND_Start) =
  {| ret := 0; post := running_with stereo_f32; emitted := [] |}.
Proof.
  apply (@pause_then_start sample_lib (running_with stereo_f32) SPA_NODE_COMMAND_Pause).
  - right. reflexivity.
  - reflexivity.
  - reflexivity.
Defined.

Lemma set_io_unbinds_witness :
  io (post (@impl_node_set_io sample_lib (running_with stereo_f32)
              SPA_IO_Buffers (Some 1%positive) 4)) = None /\
  impl_node_process
    (post (@impl_node_set_io sample_lib (running_with stereo_f32)
             SPA_IO_Buffers (Some 1%positive) 4)) (memory_with 0) =
  Returned SPA_STATUS_OK
    (post (@impl_node_set_io sample_lib (running_with stereo_f32)
             SPA_IO_Buffers (Some 1%positive) 4)) (memory_with 0).
Proof.
  apply (@set_io_unbinds sample_lib (running_with stereo_f32)
           (Some 1%positive) 4 (memory_with 0)).
  right. simpl. lia.
Defined.

(** * Ports, interfaces and the factories *)

Definition SPA_DIRECTION_OUTPUT : Z := 1.

(** The members of [struct null_state] whose address the node hands out. *)
Inductive state_member : Type :=
| member_node
| member_info
| member_port_info.



Section Ports.
(** The result type of port enumeration, a constant of the SPA headers. *)
Variable SPA_RESULT_TYPE_NODE_PORTS : Z.

(** [impl_node_get_info] (null-sink.c:689-698); [info] tells whether the
    out-pointer is non-NULL, and the second component is what was stored
    through it. *)
Definition impl_node_get_info (state : null_state) (info : bool)
    : Z * option state_member :=
  if negb info then (- EINVAL, None) else (0, Some member_info).



(** [impl_node_enum_port_params] (null-sink.c:784-792). *)
Definition impl_node_enum_port_params `{SpaLib} (state : null_state)
    (seq direction port_id id start num : Z) (filter : option spa_pod) : Z := 0.


(** [impl_node_reuse_buffer] (null-sink.c:887-891). *)
Definition impl_node_reuse_buffer (state : null_state) (port_id buffer_id : Z) : Z := 0.

End Ports.

Section PortFacts.
Context `{L : SpaLib}.
Variable result_type : Z.


End PortFacts.

From Stdlib Require Import String.

(** spa/node/node.h and null.h: the interface type of a node and the name of
    the sink factory. *)
Definition SPA_TYPE_INTERFACE_Node : string := "Spa:Pointer:Interface:Node"%string.
Definition SPA_NAME_API_NULL_SINK : string := "api.null.sink"%string.

(** [spa_streq] of spa/utils/string.h: equal contents, or both NULL. *)
Definition spa_streq (s1 s2 : option string) : bool :=
  match s1, s2 with
  | Some a, Some b => String.eqb a b
  | None, None => true
  | _, _ => false
  end.

(** [struct spa_interface_info] and the table [impl_interfaces]
    (null-sink.c:1017-1019). *)
Record spa_interface_info : Type := {
  interface_type : string
}.
Definition impl_interfaces : list spa_interface_info :=
  [ {| interface_type := SPA_TYPE_INTERFACE_Node |} ].

(** [struct spa_handle_factory], by its name; [spa_null_sink_factory]
    (null-sink.c:1046-1052). *)
Record spa_handle_factory : Type := {
  factory_name : string
}.
Definition spa_null_sink_factory : spa_handle_factory :=
  {| factory_name := SPA_NAME_API_NULL_SINK |}.

(** [impl_get_interface] (null-sink.c:949-964).  [handle] and [interface]
    tell whether the pointers are non-NULL; the second component is what was
    stored through [interface]. *)
Definition impl_get_interface (handle : bool) (type : option string)
    (interface : bool) : Z * option state_member :=
  if negb handle then (- EINVAL, None)
  else if negb interface then (- EINVAL, None)
  else if spa_streq type (Some SPA_TYPE_INTERFACE_Node) then (0, Some member_node)
  else (- ENOENT, None).

(** [impl_enum_interface_info] (null-sink.c:1021-1038).  [index] is the
    pointer with the value behind it; the result is the value returned, what
    was stored through [info], and the index afterwards. *)
Definition impl_enum_interface_info (factory info : bool) (index : option Z)
    : Z * option spa_interface_info * option Z :=
  if negb factory then (- EINVAL, None, index)
  else if negb info then (- EINVAL, None, index)
  else
    match index with
    | None => (- EINVAL, None, index)
    | Some i =>
      if i =? 0 then (1, impl_interfaces !! Z.to_nat i, Some (u32 (i + 1)))
      else (0, None, index)
    end.

(** [spa_handle_factory_enum] (null.c), with the same conventions. *)
Definition spa_handle_factory_enum (factory : bool) (index : option Z)
    : Z * option spa_handle_factory * option Z :=
  if negb factory then (- EINVAL, None, index)
  else
    match index with
    | None => (- EINVAL, None, index)
    | Some i =>
      if i =? 0 then (1, Some spa_null_sink_factory, Some (u32 (i + 1)))
      else (0, None, index)
    end.

(** The kinds of support [impl_init] looks for, and any other. *)
Inductive support_type : Type :=
| SPA_TYPE_INTERFACE_Log
| SPA_TYPE_INTERFACE_System
| SPA_TYPE_INTERFACE_DataLoop
| other_support (tag : Z).

(** [struct spa_support]: a type and a data pointer. *)
Record spa_support : Type := {
  sup_type : support_type;
  sup_data : option Z
}.

(** The loop of [impl_init] (null-sink.c:995-1007): [log], [system] and
    [loop] after the first entries of the array were read. *)
Definition init_scan_step (acc : option Z * option Z * option Z) (s : spa_support)
    : option Z * option Z * option Z :=
  let '(log, system, loop) := acc in
  match sup_type s with
  | SPA_TYPE_INTERFACE_Log => (sup_data s, system, loop)
  | SPA_TYPE_INTERFACE_System => (log, sup_data s, loop)
  | SPA_TYPE_INTERFACE_DataLoop => (log, system, sup_data s)
  | other_support _ => (log, system, loop)
  end.

(** [impl_init] (null-sink.c:979-1015) followed by [null_state_init] on the
    handle: the value returned and the node built, if any. *)
Definition impl_init (factory handle : bool) (support : list spa_support)
    : Z * option null_state :=
  if negb factory then (- EINVAL, None)
  else if negb handle then (- EINVAL, None)
  else
    let '(log, system, loop) := fold_left init_scan_step support (None, None, None) in
    match log, system with
    | Some _, Some _ => (0, Some null_state_init)
    | _, _ => (- EINVAL, None)
    end.

(** [impl_clear] (null-sink.c:966-971). *)
Definition impl_clear (state : null_state) : Z * null_state :=
  (0, null_state_cleanup state).

(** The data pointer of the last entry of type [k] in the array, NULL when
    there is none. *)
Definition same_support_type (k t : support_type) : bool :=
  match k, t with
  | SPA_TYPE_INTERFACE_Log, SPA_TYPE_INTERFACE_Log => true
  | SPA_TYPE_INTERFACE_System, SPA_TYPE_INTERFACE_System => true
  | SPA_TYPE_INTERFACE_DataLoop, SPA_TYPE_INTERFACE_DataLoop => true
  | other_support a, other_support b => a =? b
  | _, _ => false
  end.

Definition last_support (k : support_type) (support : list spa_support) : option Z :=
  match last (List.filter (fun s => same_support_type k (sup_type s)) support) with
  | Some s => sup_data s
  | None => None
  end.

Lemma init_scan_last (support : list spa_support) :
  fold_left init_scan_step support (None, None, None) =
  (last_support SPA_TYPE_INTERFACE_Log support,
   last_support SPA_TYPE_INTERFACE_System support,
   last_support SPA_TYPE_INTERFACE_DataLoop support).
Proof.
  induction support as [| s support IH] using rev_ind; [reflexivity |].
  rewrite fold_left_app, IH. cbn [fold_left init_scan_step].
  unfold last_support. rewrite !List.filter_app. cbn [List.filter].
  destruct (sup_type s); cbn [same_support_type];
    rewrite ?app_nil_r, ?last_snoc; reflexivity.
Qed.

(** X16.  Initialisation succeeds exactly when the last Log entry and the
    last System entry of the support array both carry a non-NULL pointer (a
    later entry of a type overrides an earlier one, a data loop is
    optional); it then builds the fresh node: no format, not started, no
    listener, nothing bound, counters at 0.  Otherwise it fails with
    [-EINVAL] and builds nothing. *)
Theorem init_needs_log_and_system (support : list spa_support) :
  (fst (impl_init true true support) = 0 <->
   is_Some (last_support SPA_TYPE_INTERFACE_Log support) /\
   is_Some (last_support SPA_TYPE_INTERFACE_System support)) /\
  (fst (impl_init true true support) = 0 ->
   snd (impl_init true true support) = Some null_state_init) /\
  (fst (impl_init true true support) <> 0 ->
   impl_init true true support = (- EINVAL, None)).
Proof.
  unfold impl_init. cbn [negb]. rewrite init_scan_last.
  destruct (last_support SPA_TYPE_INTERFACE_Log support) as [lg |];
    destruct (last_support SPA_TYPE_INTERFACE_System support) as [sy |];
    cbn [fst snd]; unfold EINVAL; split_and!;
    try (split; [intros Hx; try lia; split; eexists; reflexivity
                | intros [[? Hx] [? Hy]]; try discriminate; reflexivity]);
    try (intros Hx; try reflexivity; lia).
Qed.

(** X17.  Each of the two enumerations has one entry: a call at index 0
    returns 1, yields the entry (the sink factory, the Node interface) and
    moves the index to 1; a call at any other index returns 0, yields nothing
    and leaves the index, so the call after a successful one ends the
    enumeration. *)
Theorem enumerations_have_one_entry (i : Z) :
  spa_handle_factory_enum true (Some 0) = (1, Some spa_null_sink_factory, Some 1) /\
  impl_enum_interface_info true true (Some 0) =
    (1, Some {| interface_type := SPA_TYPE_INTERFACE_Node |}, Some 1) /\
  (i <> 0 ->
   spa_handle_factory_enum true (Some i) = (0, None, Some i) /\
   impl_enum_interface_info true true (Some i) = (0, None, Some i)) /\
  (fst (fst (spa_handle_factory_enum true (Some i))) = 1 ->
   spa_handle_factory_enum true (snd (spa_handle_factory_enum true (Some i))) =
     (0, None, Some 1)) /\
  (fst (fst (impl_enum_interface_info true true (Some i))) = 1 ->
   impl_enum_interface_info true true
     (snd (impl_enum_interface_info true true (Some i))) = (0, None, Some 1)).
Proof.
  unfold spa_handle_factory_enum, impl_enum_interface_info. cbn [negb].
  split_and!; try reflexivity.
  - intros Hi. destruct (Z.eqb_spec i 0); [contradiction |]. split; reflexivity.
  - destruct (Z.eqb_spec i 0) as [-> | Hi]; cbn; intros Hx; [reflexivity | lia].
  - destruct (Z.eqb_spec i 0) as [-> | Hi]; cbn; intros Hx; [reflexivity | lia].
Qed.

(** X18.  [impl_get_interface] hands out the node for the interface type
    that [impl_enum_interface_info] lists, and for no other: any other type,
    a NULL type included, fails with [-ENOENT] and stores nothing. *)
Theorem get_interface_matches_enumeration (type : option string) :
  (impl_get_interface true type true = (0, Some member_node) <->
   exists info : spa_interface_info,
     snd (fst (impl_enum_interface_info true true (Some 0))) = Some info /\
     type = Some (interface_type info)) /\
  (type <> Some SPA_TYPE_INTERFACE_Node ->
   impl_get_interface true type true = (- ENOENT, None)).
Proof.
  unfold impl_get_interface. cbn [negb].
  split.
  - destruct type as [t |]; cbn [spa_streq].
    + destruct (String.eqb_spec t SPA_TYPE_INTERFACE_Node) as [-> | Hne].
      * split; [intros _; eexists; split; reflexivity | reflexivity].
      * split; [intros Hx; discriminate Hx |].
        intros (info & Hinfo & Ht). vm_compute in Hinfo. simplify_eq.
    + split; [intros Hx; discriminate Hx |]. intros (info & _ & Ht). discriminate.
  - intros Hne. destruct type as [t |]; cbn [spa_streq]; [| reflexivity].
    destruct (String.eqb_spec t SPA_TYPE_INTERFACE_Node) as [-> | _];
      [contradiction | reflexivity].
Qed.

(** * Control and processing together *)

(** [n] rounds of: the host hands the area [area] over at [p], the node runs
    one quantum. *)
Fixpoint feed `{SpaLib} (p : addr) (area : spa_io_buffers) (n : nat) : list host_step :=
  match n with
  | O => []
  | S k => HostWrite p area :: Quantum :: feed p area k
  end.

Lemma u64_add_l (a b : Z) : u64 (u64 a + b) = u64 (a + b).
Proof. unfold u64. apply Z.add_mod_idemp_l. lia. Qed.

Section Sessions.
Context `{L : SpaLib}.

(** The reply to a Format parameter that parses and is acceptable. *)
Lemma set_param_accepted (st : null_state) (flags : Z) (p : spa_pod) :
  descriptor_parses p -> acceptable_format p ->
  impl_node_set_param st SPA_PARAM_Format flags (Some p) =
  {| ret := fst (spa_format_audio_raw_parse p zero_raw);
     post := with_format true (descriptor_info p) st;
     emitted := [param_changed 0 SPA_PARAM_Format (Some p)] |}.
Proof.
  unfold impl_node_set_param, descriptor_parses, acceptable_format, descriptor_info,
    descriptor_media_type, descriptor_media_subtype, descriptor_raw.
  cbn [Z.eqb SPA_PARAM_Format Pos.eqb].
  destruct (spa_format_parse p) as [res1 [mt mst]].
  destruct (spa_format_audio_raw_parse p zero_raw) as [res2 raw].
  cbn [fst snd]. unfold as_u32_raw. cbn [channels rate].
  intros [Hr1 Hr2] (Hmt & Hmst & Hch & Hrate).
  repeat case_cond; try lia; try congruence; reflexivity.
Qed.

(** X19.  The frame count follows the channel count of the format accepted
    last: once a Format parameter with [nchan] channels is accepted on a
    started, bound node, the next processing call on a buffer with a chunk of
    [nbytes] bytes adds [nbytes / (nchan * 4)] frames, and no Start is needed
    in between. *)
Theorem process_after_set_format (st : null_state) (m : memory) (flags : Z)
    (pod : spa_pod) (p : addr) (area : spa_io_buffers) (buf : spa_buffer)
    (d : spa_data) (c : spa_chunk) :
  descriptor_parses pod -> acceptable_format pod ->
  started st = true -> io st = Some p -> m !! p = Some area ->
  0 <= buffer_id area < MAX_BUFFERS ->
  buffers area !! Z.to_nat (buffer_id area) = Some (Some buf) ->
  datas buf !! 0%nat = Some d -> chunk d = Some c ->
  0 <= chunk_size c < 2 ^ 32 ->
  frames_after
    (impl_node_process
       (post (impl_node_set_param st SPA_PARAM_Format flags (Some pod))) m) =
  Some (u64 (frame_count st +
             chunk_size c / (channels (descriptor_raw pod) * sizeof_float))).
Proof.
  intros Hp Hacc Hs Hio Hm Hid Hbuf Hd Hc Hsize.
  rewrite (set_param_accepted st flags pod Hp Hacc). cbn [post].
  destruct Hacc as (_ & _ & Hch & _).
  rewrite (process_chunk (with_format true (descriptor_info pod) st) m p area buf d c);
    try assumption; try reflexivity.
  cbn [current_format with_format info_raw descriptor_info]. lia.
Qed.

(** X20.  Away from the wrap the counters only grow: when the counters are
    non-negative and more than 2^32 below 2^64, a processing call that
    returns adds at most one buffer and fewer than 2^32 frames, and adds no
    frame when it adds no buffer. *)
Theorem process_counters_grow (st : null_state) (m : memory)
    (res : Z) (st' : null_state) (m' : memory) :
  0 <= frame_count st -> frame_count st + 2 ^ 32 <= 2 ^ 64 ->
  0 <= buffer_count st -> buffer_count st + 1 < 2 ^ 64 ->
  impl_node_process st m = Returned res st' m' ->
  frame_count st <= frame_count st' < frame_count st + 2 ^ 32 /\
  buffer_count st <= buffer_count st' <= buffer_count st + 1 /\
  (buffer_count st' = buffer_count st -> frame_count st' = frame_count st).
Proof.
  intros Hf0 Hf1 Hb0 Hb1 H. unfold impl_node_process, account_chunk in H.
  repeat case_match; simplify_eq; try lia.
  cbn [frame_count buffer_count with_counters].
  match goal with
  | |- context [u32 ?x] => pose proof (u32_range x) as Hfr; set (fr := u32 x) in *
  end.
  rewrite (u64_small (frame_count st + fr)) by lia.
  rewrite (u64_small (buffer_count st + 1)) by lia.
  lia.
Qed.

(** X21.  Counters accumulate over a session: on a started node with an
    accepted format, [n] rounds in which the host hands over a buffer with a
    chunk of [nbytes] bytes and the node runs one quantum all return, and
    leave [frame_count] increased by [n * (nbytes / (channels * 4))] and
    [buffer_count] by [n], modulo 2^64. *)
Theorem counters_accumulate (n : nat) (st : null_state) (m : memory) (p : addr)
    (area : spa_io_buffers) (buf : spa_buffer) (d : spa_data) (c : spa_chunk) :
  node_inv st -> started st = true -> have_format st = true -> io st = Some p ->
  0 <= buffer_id area < MAX_BUFFERS ->
  buffers area !! Z.to_nat (buffer_id area) = Some (Some buf) ->
  datas buf !! 0%nat = Some d -> chunk d = Some c ->
  0 <= chunk_size c < 2 ^ 32 ->
  exists (st' : null_state) (m' : memory),
    host_run (st, m) (feed p area n) = Some (st', m') /\
    frame_count st' =
      u64 (frame_count st +
           Z.of_nat n *
           (chunk_size c / (channels (info_raw (current_format st)) * sizeof_float))) /\
    buffer_count st' = u64 (buffer_count st + Z.of_nat n) /\
    started st' = true /\ current_format st' = current_format st.
Proof.
  revert st m. induction n as [| n IH];
    intros st m Hinv Hs Hf Hio Hid Hbuf Hd Hc Hsize.
  - exists st, m. destruct Hinv as (_ & Hfc & Hbc). cbn [feed host_run].
    rewrite Z.mul_0_l, !Z.add_0_r, !u64_small by assumption.
    split_and!; try reflexivity. exact Hs.
  - pose proof Hinv as (Hfmt & Hfc & Hbc).
    destruct (Hfmt Hf) as (_ & _ & Hch & _).
    cbn [feed host_run host_step_run fst snd].
    rewrite (process_chunk st (<[p := area]> m) p area buf d c);
      try assumption; try lia; [| apply lookup_insert_eq].
    set (st1 := with_counters _ _ st).
    assert (Hinv1 : node_inv st1).
    { split; [exact Hfmt |]. cbn. unfold u64. split; apply Z.mod_pos_bound; lia. }
    destruct (IH st1 (<[p := with_buffer_id SPA_ID_INVALID area]> (<[p := area]> m))
                Hinv1 Hs Hf Hio Hid Hbuf Hd Hc Hsize)
      as (st' & m' & Hrun & Hfr & Hbu & Hst & Hcf).
    exists st', m'. split; [exact Hrun |].
    rewrite Hfr, Hbu. subst st1. cbn [frame_count buffer_count current_format with_counters].
    rewrite !u64_add_l. split_and!; try assumption.
    + f_equal. lia.
    + f_equal. lia.
Qed.

End Sessions.

Lemma process_after_set_format_witness :
  frames_after
    (impl_node_process
       (post (@impl_node_set_param sample_lib (running_with stereo_f32)
                SPA_PARAM_Format 0
                (Some (FormatObject SPA_MEDIA_TYPE_audio SPA_MEDIA_SUBTYPE_raw
                         {| format := SPA_AUDIO_FORMAT_F32P; raw_flags := 0;
                            rate := 44100; channels := 8 |}))))
       (memory_with 0)) = Some 128.
Proof.
  apply (@process_after_set_format sample_lib (running_with stereo_f32) (memory_with 0) 0
           (FormatObject SPA_MEDIA_TYPE_audio SPA_MEDIA_SUBTYPE_raw
              {| format := SPA_AUDIO_FORMAT_F32P; raw_flags := 0;
                 rate := 44100; channels := 8 |})
           1%positive (area_with 0) buffer_4096 {| chunk := Some chunk_4096 |} chunk_4096).
  - split; simpl; lia.
  - unfold acceptable_format. vm_compute. repeat split; discriminate.
  - reflexivity.
  - reflexivity.
  - reflexivity.
  - unfold MAX_BUFFERS. simpl. lia.
  - reflexivity.
  - reflexivity.
  - reflexivity.
  - simpl. lia.
Defined.

Lemma process_counters_grow_witness :
  frame_count (running_with stereo_f32) <=
    frame_count (with_counters 512 1 (running_with stereo_f32)) <
    frame_count (running_with stereo_f32) + 2 ^ 32 /\
  buffer_count (running_with stereo_f32) <=
    buffer_count (with_counters 512 1 (running_with stereo_f32)) <=
    buffer_count (running_with stereo_f32) + 1 /\
  (buffer_count (with_counters 512 1 (running_with stereo_f32)) =
     buffer_count (running_with stereo_f32) ->
   frame_count (with_counters 512 1 (running_with stereo_f32)) =
     frame_count (running_with stereo_f32)).
Proof.
  apply (process_counters_grow (running_with stereo_f32) (memory_with 0)
           SPA_STATUS_OK (with_counters 512 1 (running_with stereo_f32))
           (<[1%positive := with_buffer_id SPA_ID_INVALID (area_with 0)]> (memory_with 0))).
  - simpl. lia.
  - simpl. lia.
  - simpl. lia.
  - simpl. lia.
  - vm_compute. reflexivity.
Defined.

Lemma counters_accumulate_witness :
  exists (st' : null_state) (m' : memory),
    host_run (running_with stereo_f32, memory_with SPA_ID_INVALID)
      (@feed sample_lib 1%positive (area_with 0) 3) = Some (st', m') /\
    frame_count st' = 1536 /\ buffer_count st' = 3 /\
    started st' = true /\
    current_format st' = current_format (running_with stereo_f32).
Proof.
  apply (@counters_accumulate sample_lib 3 (running_with stereo_f32)
           (memory_with SPA_ID_INVALID) 1%positive (area_with 0)
           buffer_4096 {| chunk := Some chunk_4096 |} chunk_4096).
  - exact running_f32_inv.
  - reflexivity.
  - reflexivity.
  - reflexivity.
  - unfold MAX_BUFFERS. simpl. lia.
  - reflexivity.
  - reflexivity.
  - reflexivity.
  - simpl. lia.
Defined.
